(** * ScholarAI: the research pipeline of ScholarAI.py

    A shallow embedding of the orchestration code of ScholarAI.py
    (split_into_subtopics, research_subtopic, synthesize_report,
    needs_more_research, research_pipeline) and the properties of its
    control flow.

    Modelling choices.
    - A Python str is a Rocq [string], one [ascii] per code point; the
      model covers the code points U+0000 to U+00FF, a range closed under
      strip, lower, repr and concatenation.
    - The completion provider (client.chat.completions.create) is an
      external collaborator: a state machine over a state type [W] that
      answers a prompt with a content string or with an exception.
    - The builtin eval is an external collaborator too. A run applies it
      at most once (eval_only_on_splitter_response), so within one run it
      is a function from the evaluated text to a value or an exception:
      the evaluator of the run. The value of an expression can depend on
      the state of the interpreter, so two runs may meet two evaluators
      (eval_breaks_determinism).
    - Every call the code makes to a collaborator (logger.info, the
      provider, eval, asyncio.gather) is recorded, in program order, in
      the event trace a run returns.
    - The coroutines handed to asyncio.gather contain no await: the event
      loop runs each of them to completion in creation order, all of them
      even when one raises, and gather then re-raises the first failure. *)

From Stdlib Require Import String Ascii List ZArith Lia Bool Arith.
From Stdlib Require Import Numbers.DecimalString.
Import ListNotations.
Open Scope string_scope.
Open Scope nat_scope.

(** ** Python text primitives *)

Module PyText.

Definition nl : string := String "010"%char EmptyString.
Definition dq : string := String "034"%char EmptyString.

(** str.isspace on one code point below U+0100: the ASCII table of
    CPython (9-13, 28-32) and the two Latin-1 white spaces. *)
Definition isspace (c : ascii) : bool :=
  let n := nat_of_ascii c in
  ((9 <=? n) && (n <=? 13)) || ((28 <=? n) && (n <=? 32))
  || (n =? 133) || (n =? 160).

Fixpoint lstrip (s : string) : string :=
  match s with
  | EmptyString => EmptyString
  | String c s' => if isspace c then lstrip s' else s
  end.

Fixpoint rstrip (s : string) : string :=
  match s with
  | EmptyString => EmptyString
  | String c s' =>
      match rstrip s' with
      | EmptyString => if isspace c then EmptyString else String c EmptyString
      | r => String c r
      end
  end.

(** str.strip() with no argument. *)
Definition strip (s : string) : string := rstrip (lstrip s).

(** str.lower() on one code point below U+0100. *)
Definition lower_char (c : ascii) : ascii :=
  let n := nat_of_ascii c in
  if ((65 <=? n) && (n <=? 90))
     || ((192 <=? n) && (n <=? 222) && negb (n =? 215))
  then ascii_of_nat (n + 32) else c.

Fixpoint lower (s : string) : string :=
  match s with
  | EmptyString => EmptyString
  | String c s' => String (lower_char c) (lower s')
  end.

Fixpoint contains (q : ascii) (s : string) : bool :=
  match s with
  | EmptyString => false
  | String c s' => Ascii.eqb c q || contains q s'
  end.

Definition hex_digit (n : nat) : ascii :=
  if n <? 10 then ascii_of_nat (48 + n) else ascii_of_nat (87 + n).

Definition hex_escape (n : nat) : string :=
  String "\"%char (String "x"%char
    (String (hex_digit (n / 16)) (String (hex_digit (n mod 16)) EmptyString))).

(** One character of repr(str), for the chosen quote [q]. *)
Definition repr_char (q c : ascii) : string :=
  let n := nat_of_ascii c in
  if Ascii.eqb c q || Ascii.eqb c "\"%char then String "\"%char (String c EmptyString)
  else if n =? 9 then "\t"
  else if n =? 10 then "\n"
  else if n =? 13 then "\r"
  else if (n <? 32) || (n =? 127) then hex_escape n
  else if n <? 127 then String c EmptyString
  else if (n <=? 160) || (n =? 173) then hex_escape n
  else String c EmptyString.

Fixpoint repr_body (q : ascii) (s : string) : string :=
  match s with
  | EmptyString => EmptyString
  | String c s' => repr_char q c ++ repr_body q s'
  end.

(** repr of a str: single quotes, unless the text holds a single quote
    and no double quote. *)
Definition repr_str (s : string) : string :=
  let q := if contains "'"%char s && negb (contains "034"%char s)
           then "034"%char else "'"%char in
  String q (repr_body q s ++ String q EmptyString).

Fixpoint join (sep : string) (l : list string) : string :=
  match l with
  | [] => EmptyString
  | [x] => x
  | x :: l' => x ++ sep ++ join sep l'
  end.

(** repr of a list whose items have the given reprs. *)
Definition repr_list (items : list string) : string :=
  "[" ++ join ", " items ++ "]".

End PyText.

Import PyText.

(** ** Python values *)

(** The values the pipeline can hold in [subtopics]: what eval returned.
    The model keeps None, int, str and list. *)
#[warnings="-register-all"]
Inductive pyval : Type :=
| PyNone
| PyInt (z : Z)
| PyStr (s : string)
| PyList (l : list pyval).

Fixpoint py_repr (v : pyval) : string :=
  match v with
  | PyNone => "None"
  | PyInt z => NilZero.string_of_int (Z.to_int z)
  | PyStr s => repr_str s
  | PyList l => repr_list (map py_repr l)
  end.

(** str(v), which an f-string applies to a replacement field. *)
Definition py_str (v : pyval) : string :=
  match v with
  | PyStr s => s
  | _ => py_repr v
  end.

Fixpoint chars (s : string) : list pyval :=
  match s with
  | EmptyString => []
  | String c s' => PyStr (String c EmptyString) :: chars s'
  end.

(** The items [for s in v] visits; None stands for the TypeError of a
    value that is not iterable. *)
Definition py_iter (v : pyval) : option (list pyval) :=
  match v with
  | PyList l => Some l
  | PyStr s => Some (chars s)
  | PyNone | PyInt _ => None
  end.

(** len(v); None stands for the TypeError of a value without a length. *)
Definition py_len (v : pyval) : option nat :=
  match v with
  | PyList l => Some (List.length l)
  | PyStr s => Some (String.length s)
  | PyNone | PyInt _ => None
  end.

(** str(findings) for a list of str. *)
Definition str_of_findings (findings : list string) : string :=
  repr_list (map repr_str findings).

(** ** Exceptions, results and events *)

Inductive exn : Type := PyExc (cls : string).

Inductive result (A : Type) : Type :=
| Ok (a : A)
| Raise (e : exn).
Arguments Ok {A} a.
Arguments Raise {A} e.

(** The four call sites of client.chat.completions.create. *)
Inductive site : Type := Splitter | Researcher | Synthesizer | Judge.

Inductive event : Type :=
| EvLog (msg : string)
| EvComplete (who : site) (prompt : string) (outcome : string + exn)
| EvEval (text : string)
| EvGather (n : nat).

(** ** The prompts, as the f-strings of the source build them *)

Definition split_prompt (query : string) : string :=
  nl ++ "    Break the following question into 3 clear research subtopics:" ++ nl
  ++ "    " ++ dq ++ query ++ dq ++ nl
  ++ "    Return ONLY a Python list, example: ["
  ++ dq ++ "sub1" ++ dq ++ ", " ++ dq ++ "sub2" ++ dq ++ ", " ++ dq ++ "sub3" ++ dq
  ++ "]." ++ nl
  ++ "    ".

Definition research_prompt (subtopic : pyval) : string :=
  nl ++ "    Research this subtopic and write a concise summary:" ++ nl
  ++ "    " ++ dq ++ py_str subtopic ++ dq ++ nl
  ++ "    ".

Definition synthesis_prompt (query : string) (findings : list string) : string :=
  nl ++ "    Create a final, well-structured report for the query:" ++ nl
  ++ "    " ++ dq ++ query ++ dq ++ nl
  ++ nl
  ++ "    Here are the research findings:" ++ nl
  ++ "    " ++ str_of_findings findings ++ nl
  ++ nl
  ++ "    Return a clean narrative summary with bullet points where needed." ++ nl
  ++ "    ".

Definition judge_prompt (findings : list string) : string :=
  nl ++ "    Evaluate whether the following findings appear thorough enough:" ++ nl
  ++ nl
  ++ "    " ++ str_of_findings findings ++ nl
  ++ nl
  ++ "    Answer with ONLY: " ++ dq ++ "yes" ++ dq ++ " or " ++ dq ++ "no" ++ dq ++ "." ++ nl
  ++ "    " ++ dq ++ "yes" ++ dq ++ " = more research is needed." ++ nl
  ++ "    " ++ dq ++ "no" ++ dq ++ " = sufficient." ++ nl
  ++ "    ".

(** ** The effect monad of a run *)

Section Pipeline.

(** The provider: its state, and one completion call. *)
Variable W : Type.
Variable complete : W -> string -> (string + exn) * W.

(** The builtin eval, applied to a text. *)
Variable py_eval : string -> result pyval.

(** A computation reads the provider state and returns its outcome, the
    new provider state and the events it emitted. *)
Definition M (A : Type) : Type := W -> result A * W * list event.

Definition ret {A} (a : A) : M A := fun w => (Ok a, w, []).

Definition raise {A} (e : exn) : M A := fun w => (Raise e, w, []).

Definition bind {A B} (m : M A) (f : A -> M B) : M B :=
  fun w =>
    match m w with
    | (Ok a, w1, t1) =>
        match f a w1 with
        | (r, w2, t2) => (r, w2, (t1 ++ t2)%list)
        end
    | (Raise e, w1, t1) => (Raise e, w1, t1)
    end.

Notation "x <- m ;; k" := (bind m (fun x => k))
  (at level 61, m at next level, right associativity).
Notation "m ;;; k" := (bind m (fun _ => k))
  (at level 61, right associativity).

(** logger.info(msg) *)
Definition log (msg : string) : M unit :=
  fun w => (Ok tt, w, [EvLog msg]).

(** client.chat.completions.create(...).choices[0].message.content *)
Definition chat (who : site) (prompt : string) : M string :=
  fun w =>
    match complete w prompt with
    | (inl content, w') => (Ok content, w', [EvComplete who prompt (inl content)])
    | (inr e, w') => (Raise e, w', [EvComplete who prompt (inr e)])
    end.

(** eval(text) *)
Definition eval (text : string) : M pyval :=
  fun w => (py_eval text, w, [EvEval text]).

(** ** The four call-wrapping functions *)

Definition split_into_subtopics (query : string) : M pyval :=
  log "Splitting topic..." ;;;
  content <- chat Splitter (split_prompt query) ;;
  let text := strip content in
  eval text.

Definition research_subtopic (subtopic : pyval) : M string :=
  log ("Researching: " ++ py_str subtopic) ;;;
  content <- chat Researcher (research_prompt subtopic) ;;
  ret (strip content).

Definition synthesize_report (query : string) (findings : list string) : M string :=
  log "Synthesizing report..." ;;;
  content <- chat Synthesizer (synthesis_prompt query findings) ;;
  ret (strip content).

Definition needs_more_research (findings : list string) : M bool :=
  log "Checking if more research is needed..." ;;;
  content <- chat Judge (judge_prompt findings) ;;
  let answer := lower (strip content) in
  ret (answer =? "yes")%string.

(** ** asyncio.gather *)

(** Every task runs, in order, whatever the earlier ones returned. *)
Fixpoint run_all {A} (tasks : list (M A)) (w : W)
  : list (result A) * W * list event :=
  match tasks with
  | [] => ([], w, [])
  | t :: tasks' =>
      match t w with
      | (r, w1, t1) =>
          match run_all tasks' w1 with
          | (rs, w2, t2) => (r :: rs, w2, (t1 ++ t2)%list)
          end
      end
  end.

(** The results in task order, or the first failure. *)
Fixpoint collect {A} (rs : list (result A)) : result (list A) :=
  match rs with
  | [] => Ok []
  | Raise e :: _ => Raise e
  | Ok a :: rs' =>
      match collect rs' with
      | Ok l => Ok (a :: l)
      | Raise e => Raise e
      end
  end.

Definition gather {A} (tasks : list (M A)) : M (list A) :=
  fun w =>
    match run_all tasks w with
    | (rs, w', t) => (collect rs, w', EvGather (List.length tasks) :: t)
    end.

(** ** The orchestrator *)

(** [for s in subtopics] *)
Definition iterate (v : pyval) : M (list pyval) :=
  match py_iter v with
  | Some items => ret items
  | None => raise (PyExc "TypeError")
  end.

(** One research pass: the list comprehension that builds one
    research_subtopic coroutine per item of [subtopics], and the
    asyncio.gather that awaits them all. *)
Definition research_pass (subtopics : pyval) : M (list string) :=
  items <- iterate subtopics ;;
  gather (map research_subtopic items).

(** The body of [for _ in range(n)], with its break. *)
Fixpoint extra_passes (n : nat) (subtopics : pyval) (findings : list string)
  : M (list string) :=
  match n with
  | O => ret findings
  | S n' =>
      more <- needs_more_research findings ;;
      if more then
        log "Optimizer says more research needed. Doing another pass." ;;;
        findings' <- research_pass subtopics ;;
        extra_passes n' subtopics findings'
      else ret findings
  end.

Definition research_pipeline (user_query : string)
  : M (pyval * list string * string) :=
  subtopics <- split_into_subtopics user_query ;;
  log ("Subtopics: " ++ py_str subtopics) ;;;
  findings <- research_pass subtopics ;;
  findings <- extra_passes 2 subtopics findings ;;
  final_report <- synthesize_report user_query findings ;;
  ret (subtopics, findings, final_report).

End Pipeline.

Arguments ret {W A} a.
Arguments raise {W A} e.
Arguments bind {W A B} m f.
Arguments log {W} msg.
Arguments iterate {W} v.
Arguments gather {W A} tasks.
Arguments run_all {W A} tasks w.

(** ** A literal evaluator

    An evaluator that agrees with eval on a fragment of Python: a string
    literal in single or double quotes, made of printable ASCII characters
    other than the backslash, and a list display of such literals. A text
    outside the fragment is answered by [fallback]. *)

Module Literal.

Definition plain (c : ascii) : bool :=
  let n := nat_of_ascii c in
  (32 <=? n) && (n <=? 126) && negb (n =? 92).

(** The characters up to the closing quote [q], and what follows it. *)
Fixpoint read_quoted (q : ascii) (s : string) : option (string * string) :=
  match s with
  | EmptyString => None
  | String c s' =>
      if Ascii.eqb c q then Some (EmptyString, s')
      else if plain c then
        match read_quoted q s' with
        | Some (body, rest) => Some (String c body, rest)
        | None => None
        end
      else None
  end.

Definition read_string (s : string) : option (string * string) :=
  match s with
  | EmptyString => None
  | String c s' =>
      if Ascii.eqb c "'"%char || Ascii.eqb c "034"%char
      then read_quoted c s' else None
  end.

Fixpoint skip_spaces (s : string) : string :=
  match s with
  | String c s' => if Ascii.eqb c " "%char then skip_spaces s' else s
  | EmptyString => EmptyString
  end.

(** The items of a list display, after its opening bracket. *)
Fixpoint read_items (fuel : nat) (s : string) : option (list pyval) :=
  match fuel with
  | O => None
  | S fuel' =>
      let s1 := skip_spaces s in
      if (s1 =? "]")%string then Some []
      else
        match read_string s1 with
        | None => None
        | Some (body, rest) =>
            match skip_spaces rest with
            | String c rest' =>
                if Ascii.eqb c ","%char then
                  match read_items fuel' rest' with
                  | Some items => Some (PyStr body :: items)
                  | None => None
                  end
                else if (String c rest' =? "]")%string then Some [PyStr body]
                else None
            | EmptyString => None
            end
        end
  end.

Definition parse (text : string) : option pyval :=
  match text with
  | EmptyString => None
  | String c s =>
      if Ascii.eqb c "["%char then
        match read_items (S (String.length s)) s with
        | Some items => Some (PyList items)
        | None => None
        end
      else
        match read_string text with
        | Some (body, EmptyString) => Some (PyStr body)
        | _ => None
        end
  end.

Definition literal_eval (fallback : string -> result pyval) (text : string)
  : result pyval :=
  match parse text with
  | Some v => Ok v
  | None => fallback text
  end.

(** The fallback of the examples: the text is refused. *)
Definition refuse (text : string) : result pyval :=
  Raise (PyExc "SyntaxError").

End Literal.

(** ** Scripted providers, for concrete runs *)

Module Script.

(** A stateless provider that recognises the four prompts by their first
    line and answers each kind with a fixed text. *)
Definition answer (split judge : string) (prompt : string) : string :=
  if prefix (nl ++ "    Break the following") prompt then split
  else if prefix (nl ++ "    Evaluate whether") prompt then judge
  else if prefix (nl ++ "    Create a final") prompt then "  Report: both are viable.  "
  else " A short summary. ".

Definition steady (split judge : string)
  : unit -> string -> (string + exn) * unit :=
  fun w prompt => (inl (answer split judge prompt), w).

(** A provider that counts its calls and fails on call number [k]
    (from 0). *)
Definition failing_at (k : nat) (split judge : string)
  : nat -> string -> (string + exn) * nat :=
  fun n prompt =>
    if n =? k then (inr (PyExc "APIConnectionError"), S n)
    else (inl (answer split judge prompt), S n).

(** A provider that counts its calls and answers by the prompt alone. *)
Definition counting (split judge : string)
  : nat -> string -> (string + exn) * nat :=
  fun n prompt => (inl (answer split judge prompt), S n).

Definition three_subtopics : string :=
  "[" ++ dq ++ "Solar cost trends" ++ dq ++ ", "
      ++ dq ++ "Wind cost trends" ++ dq ++ ", "
      ++ dq ++ "Environmental impact" ++ dq ++ "]".

Definition two_subtopics : string :=
  "[" ++ dq ++ "Solar" ++ dq ++ ", " ++ dq ++ "Wind" ++ dq ++ "]".

Definition quoted_text : string := dq ++ "not a list" ++ dq.

Definition example_query : string := "Compare solar vs wind energy".

(** The runs of the examples: the judge answers yes, or no; the provider
    fails on its call number [k]. *)
Definition yes_run :=
  research_pipeline unit (steady three_subtopics "yes")
    (Literal.literal_eval Literal.refuse) example_query tt.

Definition no_run :=
  research_pipeline unit (steady three_subtopics "no")
    (Literal.literal_eval Literal.refuse) example_query tt.

Definition failing_run (k : nat) :=
  research_pipeline nat (failing_at k three_subtopics "yes")
    (Literal.literal_eval Literal.refuse) example_query 0.

Definition subtopics3 : pyval :=
  PyList [PyStr "Solar cost trends"; PyStr "Wind cost trends";
          PyStr "Environmental impact"].

Definition findings3 : list string :=
  ["A short summary."; "A short summary."; "A short summary."].

End Script.

(** ** Measures on event traces *)

Definition site_eqb (a b : site) : bool :=
  match a, b with
  | Splitter, Splitter | Researcher, Researcher
  | Synthesizer, Synthesizer | Judge, Judge => true
  | _, _ => false
  end.

Definition is_gather (ev : event) : bool :=
  match ev with EvGather _ => true | _ => false end.

Definition is_call (who : site) (ev : event) : bool :=
  match ev with EvComplete who' _ _ => site_eqb who who' | _ => false end.

Definition is_complete (ev : event) : bool :=
  match ev with EvComplete _ _ _ => true | _ => false end.

Definition is_failure (ev : event) : bool :=
  match ev with EvComplete _ _ (inr _) => true | _ => false end.

(** The research passes of a run: its calls to asyncio.gather. *)
Definition passes (tr : list event) : nat := List.length (filter is_gather tr).

(** The completion calls one call site made. *)
Definition calls (who : site) (tr : list event) : nat :=
  List.length (filter (is_call who) tr).

(** All completion calls of a run. *)
Definition provider_calls (tr : list event) : nat :=
  List.length (filter is_complete tr).

(** The verdict the judge draws from a response. *)
Definition verdict (content : string) : bool :=
  (lower (strip content) =? "yes")%string.

(** ** The provider's answers to a batch of prompts *)

Section Answers.

Variable W : Type.
Variable complete : W -> string -> (string + exn) * W.

Fixpoint answers (prompts : list string) (w : W) : list (string + exn) * W :=
  match prompts with
  | [] => ([], w)
  | p :: prompts' =>
      match complete w p with
      | (o, w1) =>
          match answers prompts' w1 with
          | (os, w2) => (o :: os, w2)
          end
      end
  end.

End Answers.

Arguments answers {W} complete prompts w.

(** What research_subtopic returns for a provider outcome. *)
Definition summary (o : string + exn) : result string :=
  match o with
  | inl content => Ok (strip content)
  | inr e => Raise e
  end.

(** What research_subtopic emits for an item and a provider outcome. *)
Definition research_events (item : pyval) (o : string + exn) : list event :=
  [EvLog ("Researching: " ++ py_str item);
   EvComplete Researcher (research_prompt item) o].

Fixpoint pass_events (items : list pyval) (os : list (string + exn)) : list event :=
  match items, os with
  | item :: items', o :: os' => (research_events item o ++ pass_events items' os')%list
  | _, _ => []
  end.

(** ** What the trace tells about each research pass *)

(** The research calls that directly follow: prompt and outcome. *)
Fixpoint research_calls (tr : list event) : list (string * (string + exn)) :=
  match tr with
  | EvLog _ :: tr1 =>
      match tr1 with
      | EvComplete Researcher p o :: tr2 => (p, o) :: research_calls tr2
      | _ => []
      end
  | _ => []
  end.

Fixpoint pass_records (tr : list event)
  : list (nat * list (string * (string + exn))) :=
  match tr with
  | [] => []
  | EvGather n :: tr' => (n, research_calls tr') :: pass_records tr'
  | _ :: tr' => pass_records tr'
  end.

(** The findings a pass assigns: the stripped content of each call. *)
Definition pass_findings (p : nat * list (string * (string + exn))) : list string :=
  flat_map (fun c => match snd c with inl content => [strip content] | inr _ => [] end)
           (snd p).

(** The prompts one call site sent, in order. *)
Definition prompts_of (who : site) (tr : list event) : list string :=
  flat_map (fun ev => match ev with
                      | EvComplete who' p _ => if site_eqb who who' then [p] else []
                      | _ => []
                      end) tr.

(** The first consultation of the judge in a run, when there is one. *)
Definition first_judgement (tr : list event) : option event :=
  find (is_call Judge) tr.

(** The events after the [k]-th call to asyncio.gather (all of them for
    [k = 0], none when the run has fewer than [k] passes). *)
Fixpoint after_pass (k : nat) (tr : list event) : list event :=
  match k with
  | O => tr
  | S k' =>
      match tr with
      | [] => []
      | EvGather _ :: tr' => after_pass k' tr'
      | _ :: tr' => after_pass k tr'
      end
  end.

(** ** The runs of the pipeline, as derivations

    The events each stage emits, and the runs of the judging loop and of
    the whole pipeline as inductive relations: one constructor per way
    through the code. [extra_passes_run] and [research_pipeline_run] below
    show that every run of the functions is one of these derivations. *)

Definition split_events (query : string) (o : string + exn) : list event :=
  [EvLog "Splitting topic..."; EvComplete Splitter (split_prompt query) o].

Definition judge_events (findings : list string) (o : string + exn) : list event :=
  [EvLog "Checking if more research is needed...";
   EvComplete Judge (judge_prompt findings) o].

Definition synthesis_events (query : string) (findings : list string)
  (o : string + exn) : list event :=
  [EvLog "Synthesizing report...";
   EvComplete Synthesizer (synthesis_prompt query findings) o].

Definition more_log : event :=
  EvLog "Optimizer says more research needed. Doing another pass.".

Definition pass_trace (items : list pyval) (os : list (string + exn)) : list event :=
  EvGather (List.length items) :: pass_events items os.

(** The events up to the first research pass. *)
Definition head_events (query content : string) (subtopics : pyval) : list event :=
  (split_events query (inl content)
   ++ [EvEval (strip content); EvLog ("Subtopics: " ++ py_str subtopics)])%list.

Section Runs.

Variable W : Type.
Variable complete : W -> string -> (string + exn) * W.
Variable py_eval : string -> result pyval.

(** [loop_run items n fs w res w' tr]: the loop that has [n] iterations
    left and holds the findings [fs], started in provider state [w],
    ends with [res] in state [w'] after emitting [tr]. *)
Inductive loop_run (items : list pyval)
  : nat -> list string -> W -> result (list string) -> W -> list event -> Prop :=
| loop_exhausted fs w :
    loop_run items 0 fs w (Ok fs) w []
| loop_judge_failed n fs w e w1 :
    complete w (judge_prompt fs) = (inr e, w1) ->
    loop_run items (S n) fs w (Raise e) w1 (judge_events fs (inr e))
| loop_sufficient n fs w r w1 :
    complete w (judge_prompt fs) = (inl r, w1) ->
    verdict r = false ->
    loop_run items (S n) fs w (Ok fs) w1 (judge_events fs (inl r))
| loop_pass_failed n fs w r w1 os w2 e :
    complete w (judge_prompt fs) = (inl r, w1) ->
    verdict r = true ->
    answers complete (map research_prompt items) w1 = (os, w2) ->
    collect (map summary os) = Raise e ->
    loop_run items (S n) fs w (Raise e) w2
      (judge_events fs (inl r) ++ more_log :: pass_trace items os)%list
| loop_again n fs w r w1 os w2 fs' res w3 tr :
    complete w (judge_prompt fs) = (inl r, w1) ->
    verdict r = true ->
    answers complete (map research_prompt items) w1 = (os, w2) ->
    collect (map summary os) = Ok fs' ->
    loop_run items n fs' w2 res w3 tr ->
    loop_run items (S n) fs w res w3
      (judge_events fs (inl r) ++ more_log :: pass_trace items os ++ tr)%list.

(** What synthesize_report and the return statement make of the
    provider's outcome. *)
Definition final_result (subtopics : pyval) (findings : list string)
  (o : string + exn) : result (pyval * list string * string) :=
  match o with
  | inl content => Ok (subtopics, findings, strip content)
  | inr e => Raise e
  end.

Inductive pipeline_run (query : string) (w : W)
  : result (pyval * list string * string) -> W -> list event -> Prop :=
| run_split_failed e w0 :
    complete w (split_prompt query) = (inr e, w0) ->
    pipeline_run query w (Raise e) w0 (split_events query (inr e))
| run_eval_raised content w0 e :
    complete w (split_prompt query) = (inl content, w0) ->
    py_eval (strip content) = Raise e ->
    pipeline_run query w (Raise e) w0
      (split_events query (inl content) ++ [EvEval (strip content)])%list
| run_not_iterable content w0 subtopics :
    complete w (split_prompt query) = (inl content, w0) ->
    py_eval (strip content) = Ok subtopics ->
    py_iter subtopics = None ->
    pipeline_run query w (Raise (PyExc "TypeError")) w0
      (head_events query content subtopics)
| run_first_pass_failed content w0 subtopics items os w1 e :
    complete w (split_prompt query) = (inl content, w0) ->
    py_eval (strip content) = Ok subtopics ->
    py_iter subtopics = Some items ->
    answers complete (map research_prompt items) w0 = (os, w1) ->
    collect (map summary os) = Raise e ->
    pipeline_run query w (Raise e) w1
      (head_events query content subtopics ++ pass_trace items os)%list
| run_loop_failed content w0 subtopics items os w1 fs1 e w2 tl :
    complete w (split_prompt query) = (inl content, w0) ->
    py_eval (strip content) = Ok subtopics ->
    py_iter subtopics = Some items ->
    answers complete (map research_prompt items) w0 = (os, w1) ->
    collect (map summary os) = Ok fs1 ->
    loop_run items 2 fs1 w1 (Raise e) w2 tl ->
    pipeline_run query w (Raise e) w2
      (head_events query content subtopics ++ pass_trace items os ++ tl)%list
| run_synthesis content w0 subtopics items os w1 fs1 fs w2 tl o w3 :
    complete w (split_prompt query) = (inl content, w0) ->
    py_eval (strip content) = Ok subtopics ->
    py_iter subtopics = Some items ->
    answers complete (map research_prompt items) w0 = (os, w1) ->
    collect (map summary os) = Ok fs1 ->
    loop_run items 2 fs1 w1 (Ok fs) w2 tl ->
    complete w2 (synthesis_prompt query fs) = (o, w3) ->
    pipeline_run query w (final_result subtopics fs o) w3
      (head_events query content subtopics ++ pass_trace items os ++ tl
       ++ synthesis_events query fs o)%list.

End Runs.

(** ** Predicates on runs *)

(** The event is not a consultation of the judge, or it is one that
    returned the verdict [b]. *)
Definition judged (b : bool) (ev : event) : bool :=
  match ev with
  | EvComplete Judge _ (inl r) => Bool.eqb (verdict r) b
  | EvComplete Judge _ (inr _) => false
  | _ => true
  end.

(** The events after the first failed completion call. *)
Fixpoint after_failure (tr : list event) : list event :=
  match tr with
  | [] => []
  | ev :: tr' => if is_failure ev then tr' else after_failure tr'
  end.

(** The event is a synthesizer call that returned a report. *)
Definition is_report (ev : event) : bool :=
  match ev with EvComplete Synthesizer _ (inl _) => true | _ => false end.

(** Every call of the pass returned a content. *)
Definition completed (p : nat * list (string * (string + exn))) : bool :=
  forallb (fun c => match snd c with inl _ => true | inr _ => false end) (snd p).

(** A completed pass over [items]: gather was given one task per item,
    call [i] sent the research prompt of item [i] and returned a content,
    and the findings are the stripped contents, in the same order. *)
Definition pass_aligned (items : list pyval)
  (p : nat * list (string * (string + exn))) : Prop :=
  fst p = List.length items /\
  exists contents,
    List.length contents = List.length items /\
    snd p = combine (map research_prompt items) (map inl contents) /\
    pass_findings p = map strip contents.

(** ** What a run shows to its caller *)

(** The outcome of a computation and the events it emitted, without the
    provider state it ends in. *)
Definition outcome {W A} (x : result A * W * list event) : result A * list event :=
  (fst (fst x), snd x).

(** A computation whose outcome and events do not depend on the provider
    state it starts from. *)
Definition oblivious {W A} (m : M W A) : Prop :=
  forall w1 w2, outcome (m w1) = outcome (m w2).

(** ** The judge's answer, in the words of the specification *)

Fixpoint blank (s : string) : bool :=
  match s with
  | EmptyString => true
  | String c s' => isspace c && blank s'
  end.

Definition yes_spellings : list string :=
  ["yes"; "yeS"; "yEs"; "yES"; "Yes"; "YeS"; "YEs"; "YES"].

(** The response is the word yes, in any letter case, with white space
    around it and nothing else. *)
Definition says_yes (r : string) : Prop :=
  exists pre core post,
    r = pre ++ core ++ post /\ blank pre = true /\ blank post = true
    /\ In core yes_spellings.

(** ** The texts eval was given *)

Definition evaluated (tr : list event) : list string :=
  flat_map (fun ev => match ev with EvEval t => [t] | _ => [] end) tr.

(** ** Trimmed texts *)

Definition starts_blank (s : string) : bool :=
  match s with
  | EmptyString => false
  | String c _ => isspace c
  end.

Fixpoint ends_blank (s : string) : bool :=
  match s with
  | EmptyString => false
  | String c EmptyString => isspace c
  | String _ s' => ends_blank s'
  end.

(** The text neither starts nor ends with white space. *)
Definition trimmed (s : string) : Prop :=
  starts_blank s = false /\ ends_blank s = false.

(** ** The Streamlit page

    What main puts on the page, one constructor per Streamlit call, in
    call order. The calls whose text is a fixed literal of the source
    (title, introduction, text area, button, warning, spinner, success
    banner and the three subheaders) carry no text here; the calls whose
    text is computed carry it. st.text_area and st.button are inputs: the
    text the user typed and whether the button was clicked. *)

Inductive heading : Type := SubtopicsHeading | FindingsHeading | ReportHeading.

Inductive widget : Type :=
| Title
| Intro
| TextArea
| Button
| Warning
| Spinner
| Success
| Subheader (h : heading)
| Markdown (text : string)
| Expander (label body : string)
| Write (text : string).

(** An int in an f-string. *)
Definition decimal (i : nat) : string := NilZero.string_of_uint (Nat.to_uint i).

(** enumerate(l, start=start) *)
Fixpoint enumerate {A} (start : nat) (l : list A) : list (nat * A) :=
  match l with
  | [] => []
  | x :: l' => (start, x) :: enumerate (S start) l'
  end.

(** st.markdown of the numbered subtopic, in bold. *)
Definition subtopic_line (p : nat * pyval) : widget :=
  Markdown ("**" ++ decimal (fst p) ++ ". " ++ py_str (snd p) ++ "**").

(** The expander of a subtopic, with st.write of its finding inside. *)
Definition finding_box (p : nat * (pyval * string)) : widget :=
  Expander ("Subtopic " ++ decimal (fst p) ++ ": " ++ py_str (fst (snd p)))
           (snd (snd p)).

Definition page_top : list widget := [Title; Intro; TextArea; Button].

Definition is_markdown (x : widget) : bool :=
  match x with Markdown _ => true | _ => false end.

Definition is_expander (x : widget) : bool :=
  match x with Expander _ _ => true | _ => false end.

Section Page.

Variable W : Type.
Variable complete : W -> string -> (string + exn) * W.
Variable py_eval : string -> result pyval.

(** asyncio.run(research_pipeline(user_query)) *)
Definition run_research_sync (user_query : string)
  : M W (pyval * list string * string) :=
  research_pipeline W complete py_eval user_query.

(** What the page shows after a run that returned; None stands for the
    TypeError of a subtopics value that cannot be iterated, raised by the
    first display loop. *)
Definition results_page (subtopics : pyval) (findings : list string)
  (final_report : string) : option (list widget) :=
  match py_iter subtopics with
  | None => None
  | Some items =>
      Some ([Success; Subheader SubtopicsHeading]
            ++ map subtopic_line (enumerate 1 items)
            ++ [Subheader FindingsHeading]
            ++ map finding_box (enumerate 1 (combine items findings))
            ++ [Subheader ReportHeading; Write final_report])%list
  end.

(** main(), for the text [user_query] of the text area and the state
    [clicked] of the button: the outcome, the provider state, the events of
    the run and the page. *)
Definition main (user_query : string) (clicked : bool) (w : W)
  : result unit * W * list event * list widget :=
  if clicked then
    if (strip user_query =? "")%string then
      (Ok tt, w, [], page_top ++ [Warning])%list
    else
      match run_research_sync user_query w with
      | (Raise e, w', tr) => (Raise e, w', tr, page_top ++ [Spinner])%list
      | (Ok (subtopics, findings, final_report), w', tr) =>
          match results_page subtopics findings final_report with
          | Some shown => (Ok tt, w', tr, page_top ++ Spinner :: shown)%list
          | None =>
              (Raise (PyExc "TypeError"), w', tr,
               page_top ++ [Spinner; Success; Subheader SubtopicsHeading])%list
          end
      end
  else (Ok tt, w, [], page_top).

End Page.

(** ** An expression whose value depends on the moment it is evaluated

    The text [clock_text] is a Python expression: a list display whose one
    item is the str of the clock reading time.time_ns(). eval gives it the
    list holding the decimal digits of that reading. [clock_eval now] is
    the evaluator of a run made while the clock reads [now]: on
    [clock_text] it gives that list, on any other text it is the literal
    evaluator. *)

Module Clock.

Definition clock_text : string := "[str(__import__('time').time_ns())]".

Definition clock_eval (now : nat) (text : string) : result pyval :=
  if (text =? clock_text)%string then Ok (PyList [PyStr (decimal now)])
  else Literal.literal_eval Literal.refuse text.

End Clock.

(** * Properties *)

(** ** Text *)

Lemma append_assoc (a b c : string) : (a ++ b) ++ c = a ++ (b ++ c).
Proof. induction a as [|x a IH]; simpl; [reflexivity | now rewrite IH]. Qed.

Lemma append_nil_r (a : string) : a ++ "" = a.
Proof. induction a as [|x a IH]; simpl; [reflexivity | now rewrite IH]. Qed.

Lemma lstrip_blank_app (pre s : string) :
  blank pre = true -> lstrip (pre ++ s) = lstrip s.
Proof.
  induction pre as [|c pre IH]; simpl; intros H; [reflexivity|].
  apply andb_true_iff in H as [Hc Hp]. rewrite Hc. now apply IH.
Qed.

Lemma rstrip_blank (post : string) : blank post = true -> rstrip post = "".
Proof.
  induction post as [|c post IH]; simpl; intros H; [reflexivity|].
  apply andb_true_iff in H as [Hc Hp]. rewrite (IH Hp), Hc. reflexivity.
Qed.

Lemma rstrip_app_blank (s post : string) :
  blank post = true -> rstrip (s ++ post) = rstrip s.
Proof.
  intros H. induction s as [|c s IH]; simpl.
  - now apply rstrip_blank.
  - now rewrite IH.
Qed.

Lemma lstrip_split (s : string) :
  exists pre, s = pre ++ lstrip s /\ blank pre = true.
Proof.
  induction s as [|c s [pre [E B]]]; simpl.
  - exists "". split; reflexivity.
  - destruct (isspace c) eqn:Hc.
    + exists (String c pre). simpl. rewrite Hc, B. split; [now rewrite <- E | reflexivity].
    + exists "". split; reflexivity.
Qed.

Lemma rstrip_split (s : string) :
  exists post, s = rstrip s ++ post /\ blank post = true.
Proof.
  induction s as [|c s [post [E B]]]; simpl.
  - exists "". split; reflexivity.
  - destruct (rstrip s) as [|d r] eqn:Hr.
    + destruct (isspace c) eqn:Hc.
      * exists (String c post). simpl in *. rewrite Hc, B. split; [now rewrite <- E | reflexivity].
      * exists post. simpl in *. split; [now rewrite <- E | assumption].
    + exists post. split; [|assumption]. simpl. simpl in E. now rewrite <- E.
Qed.

Lemma strip_split (s : string) :
  exists pre post,
    s = pre ++ strip s ++ post /\ blank pre = true /\ blank post = true.
Proof.
  destruct (lstrip_split s) as [pre [E1 B1]].
  destruct (rstrip_split (lstrip s)) as [post [E2 B2]].
  exists pre, post. unfold strip. rewrite <- E2. auto.
Qed.

Lemma lower_char_y (c : ascii) :
  lower_char c = "y"%char -> c = "y"%char \/ c = "Y"%char.
Proof.
  destruct c as [[] [] [] [] [] [] [] []]; vm_compute; intros H;
    first [discriminate H | now left | now right].
Qed.

Lemma lower_char_e (c : ascii) :
  lower_char c = "e"%char -> c = "e"%char \/ c = "E"%char.
Proof.
  destruct c as [[] [] [] [] [] [] [] []]; vm_compute; intros H;
    first [discriminate H | now left | now right].
Qed.

Lemma lower_char_s (c : ascii) :
  lower_char c = "s"%char -> c = "s"%char \/ c = "S"%char.
Proof.
  destruct c as [[] [] [] [] [] [] [] []]; vm_compute; intros H;
    first [discriminate H | now left | now right].
Qed.

Lemma lower_yes_spelling (t : string) :
  lower t = "yes" -> In t yes_spellings.
Proof.
  destruct t as [|c1 [|c2 [|c3 [|c4 t]]]]; simpl; try discriminate.
  intros H. injection H as H1 H2 H3.
  destruct (lower_char_y _ H1), (lower_char_e _ H2), (lower_char_s _ H3);
    subst; simpl; tauto.
Qed.

Lemma spelling_normal (core : string) :
  In core yes_spellings ->
  lower core = "yes" /\ rstrip core = core /\ forall s, lstrip (core ++ s) = core ++ s.
Proof.
  simpl. intros H.
  repeat (destruct H as [H|H]; [subst core; repeat split; reflexivity|]).
  destruct H.
Qed.

Lemma verdict_says_yes (r : string) : verdict r = true <-> says_yes r.
Proof.
  unfold verdict. rewrite String.eqb_eq. split.
  - intros H. destruct (strip_split r) as [pre [post [E [B1 B2]]]].
    exists pre, (strip r), post. repeat split; try assumption.
    now apply lower_yes_spelling.
  - intros [pre [core [post [E [B1 [B2 Hc]]]]]]. subst r.
    destruct (spelling_normal core Hc) as [Hl [Hr Hls]].
    unfold strip. rewrite (lstrip_blank_app _ _ B1), Hls.
    rewrite (rstrip_app_blank _ _ B2), Hr. exact Hl.
Qed.

(** ** Research passes *)

Lemma passes_app (a b : list event) : passes (a ++ b) = passes a + passes b.
Proof. unfold passes. now rewrite filter_app, length_app. Qed.

Lemma calls_app who (a b : list event) : calls who (a ++ b) = calls who a + calls who b.
Proof. unfold calls. now rewrite filter_app, length_app. Qed.

Lemma provider_calls_app (a b : list event) :
  provider_calls (a ++ b) = provider_calls a + provider_calls b.
Proof. unfold provider_calls. now rewrite filter_app, length_app. Qed.

Lemma prompts_of_app who (a b : list event) :
  prompts_of who (a ++ b) = (prompts_of who a ++ prompts_of who b)%list.
Proof. unfold prompts_of. now rewrite flat_map_app. Qed.

Section Facts.

Variable W : Type.
Variable complete : W -> string -> (string + exn) * W.
Variable py_eval : string -> result pyval.

Lemma answers_length prompts w :
  List.length (fst (answers complete prompts w)) = List.length prompts.
Proof.
  revert w. induction prompts as [|p ps IH]; intros w; simpl; [reflexivity|].
  destruct (complete w p) as [o w1]. specialize (IH w1).
  destruct (answers complete ps w1) as [os w2]. simpl in *. now rewrite IH.
Qed.

Lemma run_all_research items w :
  run_all (map (research_subtopic W complete) items) w =
  (map summary (fst (answers complete (map research_prompt items) w)),
   snd (answers complete (map research_prompt items) w),
   pass_events items (fst (answers complete (map research_prompt items) w))).
Proof.
  revert w. induction items as [|item items IH]; intros w; simpl; [reflexivity|].
  unfold research_subtopic at 1. unfold bind, log, chat, ret.
  destruct (complete w (research_prompt item)) as [[content|e] w1]; simpl;
    rewrite IH; destruct (answers complete (map research_prompt items) w1);
    reflexivity.
Qed.

Lemma research_pass_eq subtopics w :
  research_pass W complete subtopics w =
  match py_iter subtopics with
  | None => (Raise (PyExc "TypeError"), w, [])
  | Some items =>
      let a := answers complete (map research_prompt items) w in
      (collect (map summary (fst a)), snd a,
       EvGather (List.length items) :: pass_events items (fst a))
  end.
Proof.
  unfold research_pass, bind, iterate.
  destruct (py_iter subtopics) as [items|]; simpl; [|reflexivity].
  unfold gather. rewrite run_all_research, length_map. reflexivity.
Qed.

End Facts.

(** ** Every run is a derivation *)

Section Soundness.

Variable W : Type.
Variable complete : W -> string -> (string + exn) * W.
Variable py_eval : string -> result pyval.

Lemma needs_more_research_eq fs w :
  needs_more_research W complete fs w =
  match complete w (judge_prompt fs) with
  | (inl r, w1) => (Ok (verdict r), w1, judge_events fs (inl r))
  | (inr e, w1) => (Raise e, w1, judge_events fs (inr e))
  end.
Proof.
  unfold needs_more_research, bind, log, chat, ret, verdict.
  destruct (complete w (judge_prompt fs)) as [[r|e] w1]; reflexivity.
Qed.

Lemma split_into_subtopics_eq q w :
  split_into_subtopics W complete py_eval q w =
  match complete w (split_prompt q) with
  | (inl content, w0) =>
      (py_eval (strip content), w0,
       split_events q (inl content) ++ [EvEval (strip content)])%list
  | (inr e, w0) => (Raise e, w0, split_events q (inr e))
  end.
Proof.
  unfold split_into_subtopics, bind, log, chat, eval.
  destruct (complete w (split_prompt q)) as [[content|e] w0]; reflexivity.
Qed.

Lemma synthesize_report_eq q fs w :
  synthesize_report W complete q fs w =
  match complete w (synthesis_prompt q fs) with
  | (inl content, w1) => (Ok (strip content), w1, synthesis_events q fs (inl content))
  | (inr e, w1) => (Raise e, w1, synthesis_events q fs (inr e))
  end.
Proof.
  unfold synthesize_report, bind, log, chat, ret.
  destruct (complete w (synthesis_prompt q fs)) as [[content|e] w1]; reflexivity.
Qed.

Lemma extra_passes_run subtopics items n :
  py_iter subtopics = Some items ->
  forall fs w res w' tr,
    extra_passes W complete n subtopics fs w = (res, w', tr) ->
    loop_run W complete items n fs w res w' tr.
Proof.
  intros Hit. induction n as [|n IH]; intros fs w res w' tr H.
  - injection H as <- <- <-. constructor.
  - cbn [extra_passes] in H. unfold bind at 1 in H.
    rewrite needs_more_research_eq in H.
    destruct (complete w (judge_prompt fs)) as [[r|e] w1] eqn:J.
    2:{ injection H as <- <- <-. now constructor. }
    destruct (verdict r) eqn:V.
    2:{ injection H as <- <- <-. now constructor. }
    unfold bind at 1 2 in H. unfold log in H. rewrite research_pass_eq, Hit in H.
    cbv zeta in H.
    destruct (answers complete (map research_prompt items) w1) as [os w2] eqn:A.
    cbn [fst snd] in H.
    destruct (collect (map summary os)) as [fs'|e] eqn:C.
    2:{ injection H as <- <- <-. eapply loop_pass_failed; eassumption. }
    destruct (extra_passes W complete n subtopics fs' w2) as [[res1 w3] tr1] eqn:X.
    injection H as <- <- <-. apply IH in X.
    eapply loop_again; eassumption.
Qed.

Lemma research_pipeline_run q w res w' tr :
  research_pipeline W complete py_eval q w = (res, w', tr) ->
  pipeline_run W complete py_eval q w res w' tr.
Proof.
  intros H. unfold research_pipeline in H. unfold bind at 1 in H.
  rewrite split_into_subtopics_eq in H.
  destruct (complete w (split_prompt q)) as [[content|e] w0] eqn:S0.
  2:{ injection H as <- <- <-. now constructor. }
  destruct (py_eval (strip content)) as [subs|e] eqn:E.
  2:{ injection H as <- <- <-. now constructor. }
  unfold bind at 1 2 in H. unfold log in H. rewrite research_pass_eq in H.
  destruct (py_iter subs) as [items|] eqn:I.
  2:{ injection H as <- <- <-. now constructor. }
  cbv zeta in H.
  destruct (answers complete (map research_prompt items) w0) as [os w1] eqn:A.
  cbn [fst snd] in H.
  destruct (collect (map summary os)) as [fs1|e] eqn:C.
  2:{ injection H as <- <- <-. eapply run_first_pass_failed; eassumption. }
  unfold bind at 1 in H.
  destruct (extra_passes W complete 2 subs fs1 w1) as [[[fs|e] w2] tl] eqn:X;
    apply (extra_passes_run subs items 2 I) in X.
  2:{ injection H as <- <- <-. eapply run_loop_failed; eassumption. }
  unfold bind at 1 in H. rewrite synthesize_report_eq in H.
  destruct (complete w2 (synthesis_prompt q fs)) as [o w3] eqn:Y.
  assert (res = final_result subs fs o /\ w' = w3 /\
          tr = (head_events q content subs ++ pass_trace items os ++ tl
                ++ synthesis_events q fs o)%list) as [-> [-> ->]].
  { destruct o as [c|e]; injection H as <- <- <-; repeat split;
      unfold head_events; cbn [app]; rewrite ?app_nil_r; reflexivity. }
  eapply run_synthesis; eassumption.
Qed.

End Soundness.

(** ** Measures of the events of one pass *)

Lemma passes_cons ev tr :
  passes (ev :: tr) = (if is_gather ev then 1 else 0) + passes tr.
Proof. unfold passes. simpl. now destruct (is_gather ev). Qed.

Lemma calls_cons who ev tr :
  calls who (ev :: tr) = (if is_call who ev then 1 else 0) + calls who tr.
Proof. unfold calls. simpl. now destruct (is_call who ev). Qed.

Lemma provider_calls_cons ev tr :
  provider_calls (ev :: tr) = (if is_complete ev then 1 else 0) + provider_calls tr.
Proof. unfold provider_calls. simpl. now destruct (is_complete ev). Qed.

Lemma passes_pass_events items os : passes (pass_events items os) = 0.
Proof.
  revert os. induction items as [|item items IH]; intros [|o os]; try reflexivity.
  cbn [pass_events research_events app]. rewrite !passes_cons, IH. reflexivity.
Qed.

Lemma calls_pass_events who items os :
  List.length os = List.length items ->
  calls who (pass_events items os)
  = if site_eqb who Researcher then List.length items else 0.
Proof.
  revert os. induction items as [|item items IH]; intros [|o os] L;
    try discriminate L.
  - now destruct who.
  - cbn [pass_events research_events app]. rewrite !calls_cons, IH by (simpl in L; lia).
    destruct who; reflexivity.
Qed.

Lemma provider_calls_pass_events items os :
  List.length os = List.length items ->
  provider_calls (pass_events items os) = List.length items.
Proof.
  revert os. induction items as [|item items IH]; intros [|o os] L;
    try discriminate L; [reflexivity|].
  cbn [pass_events research_events app].
  rewrite !provider_calls_cons, IH by (simpl in L; lia). reflexivity.
Qed.

Lemma prompts_of_pass_events who items os :
  List.length os = List.length items ->
  prompts_of who (pass_events items os)
  = if site_eqb who Researcher then map research_prompt items else [].
Proof.
  revert os. induction items as [|item items IH]; intros [|o os] L;
    try discriminate L.
  - now destruct who.
  - cbn [pass_events research_events app]. unfold prompts_of in *.
    cbn [flat_map]. rewrite IH by (simpl in L; lia).
    destruct who; reflexivity.
Qed.

Lemma research_calls_pass_events items os rest :
  List.length os = List.length items ->
  research_calls (pass_events items os ++ rest)
  = (combine (map research_prompt items) os ++ research_calls rest)%list.
Proof.
  revert os. induction items as [|item items IH]; intros [|o os] L;
    try discriminate L; [reflexivity|].
  cbn [pass_events research_events app map combine research_calls].
  rewrite IH by (simpl in L; lia). reflexivity.
Qed.

Lemma pass_records_pass_events items os rest :
  pass_records (pass_events items os ++ rest) = pass_records rest.
Proof.
  revert os. induction items as [|item items IH]; intros [|o os]; try reflexivity.
  cbn [pass_events research_events app pass_records]. apply IH.
Qed.

Lemma after_pass_pass_events k items os rest :
  after_pass (S k) (pass_events items os ++ rest) = after_pass (S k) rest.
Proof.
  revert os. induction items as [|item items IH]; intros [|o os]; try reflexivity.
  cbn [pass_events research_events app after_pass]. apply IH.
Qed.

Lemma find_app {A} (f : A -> bool) (a b : list A) :
  find f (a ++ b) = match find f a with Some x => Some x | None => find f b end.
Proof.
  induction a as [|x a IH]; simpl; [reflexivity|]. now destruct (f x).
Qed.

Lemma find_call_pass_events who items os :
  who <> Researcher -> find (is_call who) (pass_events items os) = None.
Proof.
  intros Hw. revert os.
  induction items as [|item items IH]; intros [|o os]; try reflexivity.
  cbn [pass_events research_events app find is_call].
  destruct who; try congruence; apply IH.
Qed.

(** ** What gather collects *)

Lemma collect_ok os fs :
  collect (map summary os) = Ok fs ->
  exists contents, os = map inl contents /\ fs = map strip contents.
Proof.
  revert fs. induction os as [|[c|e] os IH]; intros fs H; simpl in H.
  - injection H as <-. exists []. split; reflexivity.
  - destruct (collect (map summary os)) as [l|e] eqn:C; [|discriminate H].
    injection H as <-. destruct (IH l eq_refl) as [cs [-> ->]].
    exists (c :: cs). split; reflexivity.
  - discriminate H.
Qed.

Lemma answers_batch W (complete : W -> string -> (string + exn) * W) items w os w' :
  answers complete (map research_prompt items) w = (os, w') ->
  List.length os = List.length items.
Proof.
  intros H. pose proof (answers_length W complete (map research_prompt items) w) as L.
  rewrite H, length_map in L. exact L.
Qed.

Lemma chars_length s : List.length (chars s) = String.length s.
Proof. induction s as [|c s IH]; simpl; [reflexivity | now rewrite IH]. Qed.

Lemma py_iter_len v items :
  py_iter v = Some items -> py_len v = Some (List.length items).
Proof.
  destruct v; simpl; intros H; try discriminate H; injection H as <-;
    [now rewrite chars_length | reflexivity].
Qed.

Lemma passes_nil : passes [] = 0.
Proof. reflexivity. Qed.

Lemma calls_nil who : calls who [] = 0.
Proof. reflexivity. Qed.

Lemma provider_calls_nil : provider_calls [] = 0.
Proof. reflexivity. Qed.

Lemma prompts_of_cons who ev tr :
  prompts_of who (ev :: tr)
  = (match ev with
     | EvComplete who' p _ => if site_eqb who who' then [p] else []
     | _ => []
     end ++ prompts_of who tr)%list.
Proof. reflexivity. Qed.

Lemma prompts_of_nil who : prompts_of who [] = [].
Proof. reflexivity. Qed.

Lemma forallb_judged_pass_events b items os :
  forallb (judged b) (pass_events items os) = true.
Proof.
  revert os. induction items as [|item items IH]; intros [|o os]; try reflexivity.
  cbn [pass_events research_events app forallb judged]. apply IH.
Qed.

(** ** Proof automation for runs *)

Ltac invert_loops :=
  repeat match goal with
         | H : loop_run _ _ _ _ _ _ _ _ _ |- _ => inversion H; subst; clear H
         end.

Ltac invert_pipeline H :=
  apply research_pipeline_run in H; inversion H; subst; clear H.

Ltac invert_run H := invert_pipeline H; invert_loops.

Ltac batch_lengths :=
  repeat match goal with
         | H : answers _ (map research_prompt ?items) _ = (?os, _) |- _ =>
             lazymatch goal with
             | L : List.length os = List.length items |- _ => fail
             | _ => pose proof (answers_batch _ _ _ _ _ _ H)
             end
         end.

Ltac flatten :=
  unfold head_events, split_events, judge_events, synthesis_events,
    pass_trace, more_log in *;
  repeat first [ rewrite <- app_assoc in * | progress cbn [app] in *
               | rewrite app_nil_r in * ].

Ltac flatten_in H :=
  unfold head_events, split_events, judge_events, synthesis_events,
    pass_trace, more_log in H;
  repeat first [ rewrite <- app_assoc in H | progress cbn [app] in H
               | rewrite app_nil_r in H ].

Ltac measure :=
  repeat first
    [ rewrite passes_app | rewrite passes_cons | rewrite passes_pass_events
    | rewrite passes_nil
    | rewrite calls_app | rewrite calls_cons
    | rewrite calls_pass_events by assumption | rewrite calls_nil
    | rewrite provider_calls_app | rewrite provider_calls_cons
    | rewrite provider_calls_pass_events by assumption
    | rewrite provider_calls_nil
    | rewrite prompts_of_app | rewrite prompts_of_cons
    | rewrite prompts_of_pass_events by assumption
    | rewrite prompts_of_nil
    | progress cbn [is_gather is_call is_complete site_eqb app] ].

Ltac settle_result :=
  repeat match goal with
         | H : final_result _ _ ?o = Ok _ |- _ =>
             destruct o; [injection H as <- <- <- | discriminate H]
         | H : final_result _ _ ?o = Raise _ |- _ =>
             destruct o; [discriminate H | injection H as <-]
         end.

(** ** The loop bound *)

Section LoopBound.

Variable W : Type.
Variable complete : W -> string -> (string + exn) * W.
Variable py_eval : string -> result pyval.

(** C2. In a run that returns and in which every consultation of the
    judge answered yes, asyncio.gather is called exactly 3 times, each
    time over all the subtopics, the judge is consulted exactly twice,
    and the run ends with the synthesizer call on the findings it
    returns, all 3 passes before it. *)
Theorem always_yes_three_passes q w subs fs rep w' tr :
  research_pipeline W complete py_eval q w = (Ok (subs, fs, rep), w', tr) ->
  forallb (judged true) tr = true ->
  passes tr = 3 /\ calls Judge tr = 2 /\
  (exists items,
      py_iter subs = Some items /\
      prompts_of Researcher tr
      = (map research_prompt items ++ map research_prompt items
         ++ map research_prompt items)%list) /\
  (exists tr0 content,
      tr = (tr0 ++ synthesis_events q fs (inl content))%list /\
      passes tr0 = 3 /\ calls Synthesizer tr0 = 0 /\ rep = strip content).
Proof.
  intros H Hy. invert_pipeline H. settle_result.
  assert (forall a b c d : list event,
             (a ++ b ++ c ++ d = (a ++ b ++ c) ++ d)%list) as Assoc
      by (intros; now rewrite <- !app_assoc).
  rewrite Assoc in *. clear Assoc.
  match goal with
  | |- context [(?t ++ synthesis_events q ?f (inl ?c))%list] =>
      set (tr0 := t) in *;
      assert (passes tr0 = 3 /\ calls Judge tr0 = 2 /\ calls Synthesizer tr0 = 0
              /\ prompts_of Researcher tr0
                 = (map research_prompt items ++ map research_prompt items
                    ++ map research_prompt items)%list) as [P [J [S R]]];
      [| rewrite passes_app, calls_app, prompts_of_app, P, J, R;
         repeat split; try reflexivity;
         [ exists items; split; [assumption | measure; now rewrite !app_nil_r]
         | exists tr0, c; repeat split; assumption ] ]
  end.
  rewrite forallb_app in Hy. apply andb_true_iff in Hy as [Hy _].
  subst tr0. invert_loops; batch_lengths; flatten.
  all: repeat first
         [ rewrite forallb_app in Hy | rewrite forallb_judged_pass_events in Hy
         | progress cbn [forallb judged andb] in Hy ].
  all: repeat match goal with
              | V : verdict ?r = _ |- _ => rewrite V in Hy
              end; cbn in Hy; try discriminate Hy.
  measure. repeat split; reflexivity.
Qed.

(** C3. In a run whose first consultation of the judge answered
    anything but yes, asyncio.gather is called exactly once, every
    subtopic is researched exactly once, the judge is not consulted
    again, and the synthesizer call follows. *)
Theorem first_no_single_pass q w res w' tr p r :
  research_pipeline W complete py_eval q w = (res, w', tr) ->
  first_judgement tr = Some (EvComplete Judge p (inl r)) ->
  verdict r = false ->
  passes tr = 1 /\ calls Judge tr = 1 /\ calls Synthesizer tr = 1 /\
  exists subs items fs o tr0,
    py_iter subs = Some items /\
    prompts_of Researcher tr = map research_prompt items /\
    tr = (tr0 ++ synthesis_events q fs o)%list /\ passes tr0 = 1 /\
    res = final_result subs fs o.
Proof.
  intros H F V. invert_run H; batch_lengths.
  all: flatten_in F; unfold first_judgement in F.
  all: repeat first
         [ rewrite find_app in F
         | rewrite find_call_pass_events in F by discriminate
         | progress cbn [find is_call site_eqb] in F ];
    try discriminate F.
  all: injection F as <- ->; try congruence.
  match goal with
  | |- context [(?h ++ ?g ++ ?j ++ synthesis_events q ?f ?o)%list] =>
      assert (passes (h ++ g ++ j) = 1 /\ calls Judge (h ++ g ++ j) = 1
              /\ calls Synthesizer (h ++ g ++ j) = 0
              /\ prompts_of Researcher (h ++ g ++ j) = map research_prompt items)
        as [P [J [S R]]]
          by (flatten; measure; rewrite ?app_nil_r; repeat split; reflexivity);
      replace (h ++ g ++ j ++ synthesis_events q f o)%list
        with ((h ++ g ++ j) ++ synthesis_events q f o)%list
        by (now rewrite <- !app_assoc);
      rewrite passes_app, (calls_app Judge), (calls_app Synthesizer), P, J, S;
      repeat split; try reflexivity;
      exists subtopics, items, f, o, (h ++ g ++ j)%list;
      rewrite prompts_of_app, R
  end.
  repeat split; try assumption; try reflexivity.
  unfold synthesis_events. measure. now rewrite app_nil_r.
Qed.

End LoopBound.

(** ** The sufficiency judge *)

Section JudgeVerdict.

Variable W : Type.
Variable complete : W -> string -> (string + exn) * W.

(** C5. Whatever string the provider answers to the judge's prompt,
    needs_more_research returns a boolean and raises nothing; the
    boolean is true exactly when the answer, stripped and lower-cased,
    equals yes, that is exactly when the answer is the word yes in any
    letter case with nothing but white space around it. *)
Theorem needs_more_research_iff_yes findings w r w1 :
  complete w (judge_prompt findings) = (inl r, w1) ->
  exists b,
    needs_more_research W complete findings w
    = (Ok b, w1, judge_events findings (inl r)) /\
    (b = true <-> lower (strip r) = "yes") /\
    (b = true <-> says_yes r).
Proof.
  intros H. rewrite needs_more_research_eq, H. exists (verdict r).
  split; [reflexivity|]. split.
  - unfold verdict. apply String.eqb_eq.
  - apply verdict_says_yes.
Qed.

End JudgeVerdict.

Lemma needs_more_research_iff_yes_witness :
  exists b,
    needs_more_research unit (Script.steady Script.three_subtopics "  YeS ")
      ["A short summary."] tt
    = (Ok b, tt, judge_events ["A short summary."] (inl "  YeS ")) /\
    (b = true <-> lower (strip "  YeS ") = "yes") /\
    (b = true <-> says_yes "  YeS ").
Proof.
  apply (needs_more_research_iff_yes unit
           (Script.steady Script.three_subtopics "  YeS ")
           ["A short summary."] tt "  YeS " tt).
  reflexivity.
Defined.

(** ** The splitter's output *)

Lemma collect_length os fs :
  collect (map summary os) = Ok fs -> List.length fs = List.length os.
Proof.
  intros H. destruct (collect_ok os fs H) as [cs [-> ->]].
  now rewrite !length_map.
Qed.

Section SplitterOutput.

Variable W : Type.
Variable complete : W -> string -> (string + exn) * W.
Variable py_eval : string -> result pyval.

(** C6, with the condition it needs. When the provider answers the
    splitter prompt with a text that evaluates to a list of exactly 3
    strings, split_into_subtopics produces that ordered sequence of 3
    subtopic strings, and the findings a run returns have length exactly
    3, for every query. *)
Theorem three_subtopics_three_findings q w content w0 s1 s2 s3 :
  complete w (split_prompt q) = (inl content, w0) ->
  py_eval (strip content) = Ok (PyList [PyStr s1; PyStr s2; PyStr s3]) ->
  fst (fst (split_into_subtopics W complete py_eval q w))
  = Ok (PyList [PyStr s1; PyStr s2; PyStr s3]) /\
  py_len (PyList [PyStr s1; PyStr s2; PyStr s3]) = Some 3 /\
  forall subs fs rep w' tr,
    research_pipeline W complete py_eval q w = (Ok (subs, fs, rep), w', tr) ->
    subs = PyList [PyStr s1; PyStr s2; PyStr s3] /\ List.length fs = 3.
Proof.
  intros Hs He. split; [|split; [reflexivity|]].
  - rewrite split_into_subtopics_eq, Hs. exact He.
  - intros subs fs rep w' tr H. invert_run H; settle_result; batch_lengths.
    all: repeat match goal with
           | S0 : complete _ (split_prompt _) = (inl _, _) |- _ =>
               rewrite Hs in S0; injection S0 as <- <-
           | E0 : py_eval (strip _) = Ok _ |- _ =>
               rewrite He in E0; injection E0 as <-
           | I0 : py_iter (PyList _) = Some _ |- _ =>
               cbn in I0; injection I0 as <-
           end.
    all: split; [reflexivity|].
    all: match goal with
         | C : collect (map summary ?os) = Ok ?f,
           L : List.length ?os = _ |- List.length ?f = 3 =>
             apply collect_length in C; rewrite C, L; reflexivity
         end.
Qed.

End SplitterOutput.

Lemma three_subtopics_three_findings_witness :
  fst (fst (split_into_subtopics unit (Script.steady Script.three_subtopics "no")
              (Literal.literal_eval Literal.refuse) Script.example_query tt))
  = Ok (PyList [PyStr "Solar cost trends"; PyStr "Wind cost trends";
                PyStr "Environmental impact"]) /\
  py_len (PyList [PyStr "Solar cost trends"; PyStr "Wind cost trends";
                  PyStr "Environmental impact"]) = Some 3 /\
  forall subs fs rep w' tr,
    research_pipeline unit (Script.steady Script.three_subtopics "no")
      (Literal.literal_eval Literal.refuse) Script.example_query tt
    = (Ok (subs, fs, rep), w', tr) ->
    subs = PyList [PyStr "Solar cost trends"; PyStr "Wind cost trends";
                   PyStr "Environmental impact"] /\
    List.length fs = 3.
Proof.
  apply (three_subtopics_three_findings unit
           (Script.steady Script.three_subtopics "no")
           (Literal.literal_eval Literal.refuse) Script.example_query tt
           Script.three_subtopics tt).
  - reflexivity.
  - vm_compute. reflexivity.
Defined.

(** C6, as the specification states it, fails: a provider that answers
    the splitter prompt with a list of two strings makes
    split_into_subtopics return two subtopics and the run return two
    findings, for a non-empty query. *)
Lemma two_subtopics_accepted :
  fst (fst (split_into_subtopics unit (Script.steady Script.two_subtopics "no")
              (Literal.literal_eval Literal.refuse) Script.example_query tt))
  = Ok (PyList [PyStr "Solar"; PyStr "Wind"]) /\
  fst (fst (research_pipeline unit (Script.steady Script.two_subtopics "no")
              (Literal.literal_eval Literal.refuse) Script.example_query tt))
  = Ok (PyList [PyStr "Solar"; PyStr "Wind"],
        ["A short summary."; "A short summary."],
        "Report: both are viable.") /\
  py_len (PyList [PyStr "Solar"; PyStr "Wind"]) = Some 2 /\
  List.length ["A short summary."; "A short summary."] = 2 /\
  Script.example_query <> "".
Proof.
  repeat split; try (vm_compute; reflexivity). discriminate.
Qed.

(** C1, at the failing input. The provider answers the splitter prompt
    with the ten letters of not a list between double quotes: a string
    literal, not a list. split_into_subtopics hands that text to eval and
    returns the str eval gives, raising nothing. *)
Theorem quoted_text_is_evaluated :
  split_into_subtopics unit (Script.steady Script.quoted_text "no")
    (Literal.literal_eval Literal.refuse) Script.example_query tt
  = (Ok (PyStr "not a list"), tt,
     (split_events Script.example_query (inl Script.quoted_text)
      ++ [EvEval Script.quoted_text])%list).
Proof. vm_compute. reflexivity. Qed.

(** ** The example scenario *)

Section Scenario.

Variable W : Type.
Variable complete : W -> string -> (string + exn) * W.
Variable py_eval : string -> result pyval.

Lemma answers_all_ok items :
  (forall w item, exists c w1, complete w (research_prompt item) = (inl c, w1)) ->
  forall w os w',
    answers complete (map research_prompt items) w = (os, w') ->
    exists fs, collect (map summary os) = Ok fs.
Proof.
  intros Hr. induction items as [|item items IH]; intros w os w' H; simpl in H.
  - injection H as <- <-. exists []. reflexivity.
  - destruct (Hr w item) as [c [w1 Hc]]. rewrite Hc in H.
    destruct (answers complete (map research_prompt items) w1) as [os1 w2] eqn:A.
    injection H as <- <-. destruct (IH _ _ _ A) as [fs Hfs].
    exists (strip c :: fs). simpl. now rewrite Hfs.
Qed.

(** C7, as the code has it. When the splitter's response evaluates to
    a list of 3 strings, every researcher call returns a summary, the
    judge answers anything but yes, and the synthesizer returns a text
    that is not blank, the run returns those 3 subtopics, 3 findings and
    a non-empty report, after exactly 1 + 3 + 1 + 1 = 6 completion
    calls: the judge's check is a completion call too. *)
Theorem example_scenario q w c0 w0 s1 s2 s3 :
  complete w (split_prompt q) = (inl c0, w0) ->
  py_eval (strip c0) = Ok (PyList [PyStr s1; PyStr s2; PyStr s3]) ->
  (forall w item, exists c w1, complete w (research_prompt item) = (inl c, w1)) ->
  (forall w fs, exists r w1,
      complete w (judge_prompt fs) = (inl r, w1) /\ verdict r = false) ->
  (forall w fs, exists c w1,
      complete w (synthesis_prompt q fs) = (inl c, w1) /\ strip c <> "") ->
  exists fs rep w' tr,
    research_pipeline W complete py_eval q w
    = (Ok (PyList [PyStr s1; PyStr s2; PyStr s3], fs, rep), w', tr) /\
    py_len (PyList [PyStr s1; PyStr s2; PyStr s3]) = Some 3 /\
    List.length fs = 3 /\ rep <> "" /\ provider_calls tr = 6 /\
    calls Splitter tr = 1 /\ calls Researcher tr = 3 /\
    calls Judge tr = 1 /\ calls Synthesizer tr = 1.
Proof.
  intros Hs He Hr Hj Hy.
  destruct (research_pipeline W complete py_eval q w) as [[res w'] tr] eqn:R.
  pose proof R as R'. invert_run R'; batch_lengths.
  all: repeat match goal with
         | H : complete _ (split_prompt _) = _ |- _ =>
             rewrite Hs in H; try discriminate H; injection H as <- <-
         | H : py_eval (strip _) = _ |- _ =>
             rewrite He in H; try discriminate H; injection H as <-
         | H : py_iter (PyList _) = _ |- _ =>
             cbn in H; try discriminate H; injection H as <-
         end.
  all: try match goal with
         | A : answers complete _ _ = (?os, _),
           C : collect (map summary ?os) = Raise _ |- _ =>
             destruct (answers_all_ok _ Hr _ _ _ A) as [? C']; congruence
         end.
  all: try match goal with
         | J : complete ?w1 (judge_prompt ?f) = _ |- _ =>
             destruct (Hj w1 f) as [? [? [J' V']]]; rewrite J' in J;
             try discriminate J; injection J as <- <-; congruence
         end.
  match goal with
  | J : complete ?w1 (judge_prompt ?f) = (inl _, ?w2),
    Y : complete ?w2 (synthesis_prompt q ?f) = (?o, _),
    C : collect (map summary ?os) = Ok ?f |- _ =>
      let c := fresh "c" in
      let wy := fresh "wy" in
      destruct (Hy w2 f) as [c [wy [Y' N]]]; rewrite Y' in Y;
      injection Y as <- <-;
      exists f, (strip c), wy; eexists; split; [reflexivity|];
      apply collect_length in C
  end.
  split; [reflexivity|]. split.
  { match goal with
    | L : List.length _ = List.length [_; _; _],
      C : List.length ?f = _ |- List.length ?f = _ => now rewrite C, L
    end. }
  split; [assumption|]. flatten. measure. repeat split; reflexivity.
Qed.

End Scenario.

Lemma example_scenario_witness :
  exists fs rep w' tr,
    research_pipeline unit (Script.steady Script.three_subtopics "no")
      (Literal.literal_eval Literal.refuse) Script.example_query tt
    = (Ok (PyList [PyStr "Solar cost trends"; PyStr "Wind cost trends";
                   PyStr "Environmental impact"], fs, rep), w', tr) /\
    py_len (PyList [PyStr "Solar cost trends"; PyStr "Wind cost trends";
                    PyStr "Environmental impact"]) = Some 3 /\
    List.length fs = 3 /\ rep <> "" /\ provider_calls tr = 6 /\
    calls Splitter tr = 1 /\ calls Researcher tr = 3 /\
    calls Judge tr = 1 /\ calls Synthesizer tr = 1.
Proof.
  apply (example_scenario unit (Script.steady Script.three_subtopics "no")
           (Literal.literal_eval Literal.refuse) Script.example_query tt
           Script.three_subtopics tt).
  - reflexivity.
  - vm_compute. reflexivity.
  - intros w item. eexists. exists w. reflexivity.
  - intros w fs. exists "no", w. split; reflexivity.
  - intros w fs. exists "  Report: both are viable.  ", w. split; [reflexivity|].
    vm_compute. discriminate.
Defined.

(** C7, as the specification states it, fails: in the example scenario
    the run returns 3 subtopics, 3 findings and a non-empty report, but it
    has made 6 completion calls, not 5. *)
Lemma example_scenario_six_calls :
  fst (fst (research_pipeline unit (Script.steady Script.three_subtopics "no")
              (Literal.literal_eval Literal.refuse) Script.example_query tt))
  = Ok (PyList [PyStr "Solar cost trends"; PyStr "Wind cost trends";
                PyStr "Environmental impact"],
        ["A short summary."; "A short summary."; "A short summary."],
        "Report: both are viable.") /\
  first_judgement
    (snd (research_pipeline unit (Script.steady Script.three_subtopics "no")
            (Literal.literal_eval Literal.refuse) Script.example_query tt))
  = Some (EvComplete Judge
            (judge_prompt ["A short summary."; "A short summary."; "A short summary."])
            (inl "no")) /\
  verdict "no" = false /\
  provider_calls
    (snd (research_pipeline unit (Script.steady Script.three_subtopics "no")
            (Literal.literal_eval Literal.refuse) Script.example_query tt))
  = 6 /\
  provider_calls
    (snd (research_pipeline unit (Script.steady Script.three_subtopics "no")
            (Literal.literal_eval Literal.refuse) Script.example_query tt))
  <> 5.
Proof.
  repeat split; try (vm_compute; reflexivity). vm_compute. discriminate.
Qed.

Lemma always_yes_three_passes_witness :
  passes (snd Script.yes_run) = 3 /\ calls Judge (snd Script.yes_run) = 2 /\
  (exists items,
      py_iter Script.subtopics3 = Some items /\
      prompts_of Researcher (snd Script.yes_run)
      = (map research_prompt items ++ map research_prompt items
         ++ map research_prompt items)%list) /\
  (exists tr0 content,
      snd Script.yes_run
      = (tr0 ++ synthesis_events Script.example_query Script.findings3 (inl content))%list /\
      passes tr0 = 3 /\ calls Synthesizer tr0 = 0 /\
      "Report: both are viable." = strip content).
Proof.
  apply (always_yes_three_passes unit (Script.steady Script.three_subtopics "yes")
           (Literal.literal_eval Literal.refuse) Script.example_query tt
           Script.subtopics3 Script.findings3 "Report: both are viable." tt
           (snd Script.yes_run)).
  - vm_compute. reflexivity.
  - vm_compute. reflexivity.
Defined.

Lemma first_no_single_pass_witness :
  passes (snd Script.no_run) = 1 /\ calls Judge (snd Script.no_run) = 1 /\
  calls Synthesizer (snd Script.no_run) = 1 /\
  exists subs items fs o tr0,
    py_iter subs = Some items /\
    prompts_of Researcher (snd Script.no_run) = map research_prompt items /\
    snd Script.no_run = (tr0 ++ synthesis_events Script.example_query fs o)%list /\
    passes tr0 = 1 /\
    fst (fst Script.no_run) = final_result subs fs o.
Proof.
  apply (first_no_single_pass unit (Script.steady Script.three_subtopics "no")
           (Literal.literal_eval Literal.refuse) Script.example_query tt
           (fst (fst Script.no_run)) tt (snd Script.no_run)
           (judge_prompt Script.findings3) "no").
  - vm_compute. reflexivity.
  - vm_compute. reflexivity.
  - vm_compute. reflexivity.
Defined.

(** ** The records of a pass *)

Lemma pass_findings_ok n prompts os fs :
  List.length os = List.length prompts ->
  collect (map summary os) = Ok fs ->
  pass_findings (n, (combine prompts os ++ [])%list) = fs /\
  completed (n, (combine prompts os ++ [])%list) = true.
Proof.
  intros L C. destruct (collect_ok os fs C) as [cs [-> ->]].
  rewrite app_nil_r. unfold pass_findings, completed. cbn [snd].
  rewrite length_map in L. clear C. revert prompts L.
  induction cs as [|c cs IH]; intros [|p ps] L; try discriminate L.
  - split; reflexivity.
  - destruct (IH ps) as [F K]; [simpl in L; lia|].
    cbn [map combine flat_map forallb snd app andb]. rewrite F, K. split; reflexivity.
Qed.

Lemma completed_raise n prompts os e :
  List.length os = List.length prompts ->
  collect (map summary os) = Raise e ->
  completed (n, (combine prompts os ++ [])%list) = false.
Proof.
  intros L C. rewrite app_nil_r. unfold completed. cbn [snd].
  revert prompts L. induction os as [|[c|e'] os IH]; intros [|p ps] L;
    try discriminate L; simpl in C.
  - discriminate C.
  - destruct (collect (map summary os)) as [l|e''] eqn:C'; [discriminate C|].
    cbn [combine forallb snd andb]. apply IH; [assumption | simpl in L; lia].
  - reflexivity.
Qed.

Lemma after_pass_0 tr : after_pass 0 tr = tr.
Proof. destruct tr; reflexivity. Qed.

Lemma after_pass_pass_events_only k items os :
  after_pass (S k) (pass_events items os) = [].
Proof.
  rewrite <- (app_nil_r (pass_events items os)), after_pass_pass_events.
  reflexivity.
Qed.

Lemma pass_records_pass_events_only items os :
  pass_records (pass_events items os) = [].
Proof.
  rewrite <- (app_nil_r (pass_events items os)), pass_records_pass_events.
  reflexivity.
Qed.

Lemma research_calls_pass_events_only items os :
  List.length os = List.length items ->
  research_calls (pass_events items os)
  = (combine (map research_prompt items) os ++ [])%list.
Proof.
  intros L. rewrite <- (app_nil_r (pass_events items os)) at 1.
  now rewrite research_calls_pass_events.
Qed.

Ltac records_in H :=
  repeat first
    [ rewrite pass_records_pass_events in H
    | rewrite pass_records_pass_events_only in H
    | rewrite research_calls_pass_events in H by assumption
    | rewrite research_calls_pass_events_only in H by assumption
    | progress cbn [pass_records research_calls app] in H ].

Ltac records :=
  repeat first
    [ rewrite pass_records_pass_events
    | rewrite pass_records_pass_events_only
    | rewrite research_calls_pass_events by assumption
    | rewrite research_calls_pass_events_only by assumption
    | progress cbn [pass_records research_calls app] ].

(** ** The judge is consulted at most twice *)

Section JudgeBound.

Variable W : Type.
Variable complete : W -> string -> (string + exn) * W.
Variable py_eval : string -> result pyval.

(** C9. In every run the judge is consulted at most twice and
    asyncio.gather is called at most 3 times; no consultation of the
    judge follows the third call to gather; and when the third pass
    completes, the one synthesizer call of the run comes after it and
    is given the findings of that pass. *)
Theorem judge_consulted_at_most_twice q w :
  let tr := snd (research_pipeline W complete py_eval q w) in
  calls Judge tr <= 2 /\ passes tr <= 3 /\
  calls Judge (after_pass 3 tr) = 0 /\
  (forall p3,
      nth_error (pass_records tr) 2 = Some p3 ->
      completed p3 = true ->
      prompts_of Synthesizer tr = [synthesis_prompt q (pass_findings p3)] /\
      prompts_of Synthesizer (after_pass 3 tr)
      = [synthesis_prompt q (pass_findings p3)]).
Proof.
  cbv zeta.
  destruct (research_pipeline W complete py_eval q w) as [[res w'] tr] eqn:R.
  cbn [snd]. invert_run R; batch_lengths; flatten.
  all: split; [measure; cbn; lia|].
  all: split; [measure; cbn; lia|].
  all: split; [repeat first
         [ rewrite after_pass_pass_events
         | rewrite after_pass_pass_events_only
         | rewrite after_pass_0
         | progress cbn [after_pass app] ]; measure; reflexivity|].
  all: intros p3 N K; records_in N; cbn [nth_error] in N; try discriminate N.
  all: injection N as <-.
  all: match goal with
       | C : collect (map summary ?os) = Raise _,
         L : List.length ?os = List.length ?items |- _ =>
           rewrite <- (length_map research_prompt items) in L;
           rewrite (completed_raise _ _ _ _ L C) in K; discriminate K
       | C : collect (map summary ?os) = Ok ?f,
         L : List.length ?os = List.length ?items
         |- context [combine (map research_prompt ?items) ?os] =>
           pose proof L as L';
           rewrite <- (length_map research_prompt items) in L';
           destruct (pass_findings_ok (List.length items) _ _ _ L' C) as [-> _]
       end.
  all: repeat first
         [ rewrite after_pass_pass_events
         | rewrite after_pass_pass_events_only
         | rewrite after_pass_0
         | progress cbn [after_pass app] ];
    measure; split; reflexivity.
Qed.

End JudgeBound.

(** ** Findings stay aligned with the subtopics *)

Lemma map_fst_combine_nil {A B} (xs : list A) (ys : list B) :
  List.length ys = List.length xs ->
  map fst (combine xs ys ++ [])%list = xs.
Proof.
  rewrite app_nil_r. revert ys.
  induction xs as [|x xs IH]; intros [|y ys] L; try discriminate L;
    [reflexivity|].
  cbn [combine map fst]. rewrite IH by (simpl in L; lia). reflexivity.
Qed.

Lemma pass_aligned_ok items os fs :
  List.length os = List.length items ->
  collect (map summary os) = Ok fs ->
  pass_aligned items
    (List.length items, (combine (map research_prompt items) os ++ [])%list).
Proof.
  intros L C. pose proof L as L'.
  rewrite <- (length_map research_prompt items) in L'.
  destruct (pass_findings_ok (List.length items) _ _ _ L' C) as [F _].
  destruct (collect_ok os fs C) as [cs [-> ->]].
  split; [reflexivity|]. exists cs. rewrite length_map in L.
  repeat split; [assumption | now rewrite app_nil_r | assumption].
Qed.

Section Alignment.

Variable W : Type.
Variable complete : W -> string -> (string + exn) * W.
Variable py_eval : string -> result pyval.

(** C4. In every run there is one sequence of items, the iteration of
    the subtopics, such that every research pass hands gather one task
    per item and sends the research prompts of the items in order;
    every pass that completes yields findings of that length, findings
    [i] being the stripped response to the prompt of item [i]; the
    [j]-th consultation of the judge is given the findings of the
    [j]-th pass alone; and a run that returns, returns the findings of
    its last pass, of length len(subtopics). *)
Theorem findings_aligned q w res w' tr :
  research_pipeline W complete py_eval q w = (res, w', tr) ->
  exists items,
    Forall (fun p => fst p = List.length items /\
                     map fst (snd p) = map research_prompt items)
           (pass_records tr) /\
    Forall (fun p => completed p = true ->
                     pass_aligned items p /\
                     List.length (pass_findings p) = List.length items)
           (pass_records tr) /\
    prompts_of Judge tr
    = map (fun p => judge_prompt (pass_findings p))
          (firstn (calls Judge tr) (pass_records tr)) /\
    forall subs fs rep,
      res = Ok (subs, fs, rep) ->
      py_iter subs = Some items /\
      py_len subs = Some (List.length fs) /\
      Forall (fun p => completed p = true) (pass_records tr) /\
      exists earlier last,
        pass_records tr = (earlier ++ [last])%list /\ fs = pass_findings last.
Proof.
  intros H. invert_run H; batch_lengths; flatten.
  all: match goal with
       | Hi : py_iter _ = Some ?items |- _ => exists items
       | _ => exists (@nil pyval)
       end.
  all: records.
  all: repeat match goal with
         | L : List.length ?os = List.length ?items,
           C : collect (map summary ?os) = Ok ?f |- _ =>
             pose proof (pass_aligned_ok items os f L C);
             pose proof (collect_length os f C);
             let L' := fresh "L" in
             pose proof L as L';
             rewrite <- (length_map research_prompt items) in L';
             destruct (pass_findings_ok (List.length items) _ _ _ L' C);
             clear L' C
         | L : List.length ?os = List.length ?items,
           C : collect (map summary ?os) = Raise _ |- _ =>
             let L' := fresh "L" in
             pose proof L as L';
             rewrite <- (length_map research_prompt items) in L';
             pose proof (completed_raise (List.length items) _ _ _ L' C);
             clear L' C
         end.
  all: split;
    [ repeat (apply Forall_cons;
              [ cbn [fst snd]; split;
                [ reflexivity
                | apply map_fst_combine_nil; now rewrite length_map ] |]);
      apply Forall_nil |].
  all: split;
    [ repeat (apply Forall_cons;
              [ intros K; first [ congruence | split; [assumption | congruence] ] |]);
      apply Forall_nil |].
  all: split;
    [ measure; cbn [plus firstn map]; rewrite ?app_nil_r in *; congruence |].
  all: intros ? ? ? E; try discriminate E; settle_result.
  all: split; [assumption|]; split;
    [ match goal with
      | Hi : py_iter _ = Some _ |- _ => apply py_iter_len in Hi; congruence
      end |].
  all: split; [repeat (apply Forall_cons; [assumption|]); apply Forall_nil|].
  - eexists [], _. split; [reflexivity | congruence].
  - eexists [_], _. split; [reflexivity | congruence].
  - eexists [_; _], _. split; [reflexivity | congruence].
Qed.

End Alignment.

Lemma findings_aligned_witness :
  exists items,
    Forall (fun p => fst p = List.length items /\
                     map fst (snd p) = map research_prompt items)
           (pass_records (snd Script.yes_run)) /\
    Forall (fun p => completed p = true ->
                     pass_aligned items p /\
                     List.length (pass_findings p) = List.length items)
           (pass_records (snd Script.yes_run)) /\
    prompts_of Judge (snd Script.yes_run)
    = map (fun p => judge_prompt (pass_findings p))
          (firstn (calls Judge (snd Script.yes_run))
                  (pass_records (snd Script.yes_run))) /\
    forall subs fs rep,
      fst (fst Script.yes_run) = Ok (subs, fs, rep) ->
      py_iter subs = Some items /\
      py_len subs = Some (List.length fs) /\
      Forall (fun p => completed p = true) (pass_records (snd Script.yes_run)) /\
      exists earlier last,
        pass_records (snd Script.yes_run) = (earlier ++ [last])%list /\
        fs = pass_findings last.
Proof.
  apply (findings_aligned unit (Script.steady Script.three_subtopics "yes")
           (Literal.literal_eval Literal.refuse) Script.example_query tt
           (fst (fst Script.yes_run)) tt (snd Script.yes_run)).
  vm_compute. reflexivity.
Defined.

(** ** Failures of the provider *)

Lemma find_failure_pass_ok items os fs rest :
  collect (map summary os) = Ok fs ->
  find is_failure (pass_events items os ++ rest) = find is_failure rest.
Proof.
  intros C. destruct (collect_ok os fs C) as [cs [-> _]]. clear C.
  revert cs. induction items as [|item items IH]; intros [|c cs]; try reflexivity.
  cbn [map pass_events research_events app find is_failure]. apply IH.
Qed.

Lemma after_failure_pass_ok items os fs rest :
  collect (map summary os) = Ok fs ->
  after_failure (pass_events items os ++ rest) = after_failure rest.
Proof.
  intros C. destruct (collect_ok os fs C) as [cs [-> _]]. clear C.
  revert cs. induction items as [|item items IH]; intros [|c cs]; try reflexivity.
  cbn [map pass_events research_events app after_failure is_failure]. apply IH.
Qed.

Lemma pass_raise_failure items os e :
  List.length os = List.length items ->
  collect (map summary os) = Raise e ->
  exists p items' os',
    find is_failure (pass_events items os)
    = Some (EvComplete Researcher p (inr e)) /\
    after_failure (pass_events items os) = pass_events items' os' /\
    List.length os' = List.length items'.
Proof.
  revert os. induction items as [|item items IH]; intros [|[c|e'] os] L C;
    try discriminate L; simpl in C.
  - discriminate C.
  - destruct (collect (map summary os)) as [l|e''] eqn:C'; [discriminate C|].
    injection C as ->. simpl in L.
    destruct (IH os ltac:(lia) C') as [p [items' [os' [F [A L']]]]].
    exists p, items', os'.
    cbn [pass_events research_events app find after_failure is_failure].
    repeat split; assumption.
  - injection C as ->. simpl in L.
    exists (research_prompt item), items, os.
    cbn [pass_events research_events app find after_failure is_failure].
    repeat split; lia.
Qed.

Lemma existsb_report_pass_events items os :
  existsb is_report (pass_events items os) = false.
Proof.
  revert os. induction items as [|item items IH]; intros [|o os]; try reflexivity.
  cbn [pass_events research_events app existsb is_report orb]. apply IH.
Qed.

Section Failures.

Variable W : Type.
Variable complete : W -> string -> (string + exn) * W.
Variable py_eval : string -> result pyval.

(** C8. In a run whose first failed completion call, made by any of
    the four call sites, raised [e]: the run raises [e]; no synthesizer
    call of the run returned a report; after the failure there is no
    call to gather and no call of the splitter, the judge or the
    synthesizer (all that can follow are the research calls of the pass
    already under way), so nothing is tried again; and when the failed
    call is the splitter's, it is the only completion call of the
    run. *)
Theorem provider_failure_is_fatal q w res w' tr who p e :
  research_pipeline W complete py_eval q w = (res, w', tr) ->
  find is_failure tr = Some (EvComplete who p (inr e)) ->
  res = Raise e /\
  existsb is_report tr = false /\
  passes (after_failure tr) = 0 /\
  calls Splitter (after_failure tr) = 0 /\
  calls Judge (after_failure tr) = 0 /\
  calls Synthesizer (after_failure tr) = 0 /\
  (who <> Researcher -> after_failure tr = []) /\
  (who = Splitter ->
   calls Researcher tr = 0 /\ passes tr = 0 /\ provider_calls tr = 1).
Proof.
  intros H F. invert_run H; batch_lengths; flatten.
  all: try match goal with
         | _ : complete _ (synthesis_prompt _ _) = (?o, _) |- _ =>
             destruct o; cbn [final_result]
         end.
  all: repeat first
         [ erewrite find_failure_pass_ok in F by eassumption
         | progress cbn [find is_failure] in F ];
    try discriminate F.
  all: try match goal with
         | L : List.length ?os = List.length ?items,
           C : collect (map summary ?os) = Raise _ |- _ =>
             let A := fresh "A" in
             let F' := fresh "F" in
             destruct (pass_raise_failure items os _ L C)
               as [? [? [? [F' [A ?]]]]];
             rewrite F' in F;
             repeat first
               [ erewrite after_failure_pass_ok by eassumption
               | progress cbn [after_failure is_failure] ];
             rewrite A
         end.
  all: injection F as <- <- <-.
  all: repeat first
         [ erewrite after_failure_pass_ok by eassumption
         | progress cbn [after_failure is_failure] ].
  all: repeat first
         [ rewrite existsb_app | rewrite existsb_report_pass_events
         | progress cbn [existsb is_report orb] ].
  all: repeat split; try reflexivity; try congruence;
    try (measure; reflexivity).
Qed.

End Failures.

Lemma provider_failure_is_fatal_witness :
  fst (fst (Script.failing_run 0)) = Raise (PyExc "APIConnectionError") /\
  existsb is_report (snd (Script.failing_run 0)) = false /\
  passes (after_failure (snd (Script.failing_run 0))) = 0 /\
  calls Splitter (after_failure (snd (Script.failing_run 0))) = 0 /\
  calls Judge (after_failure (snd (Script.failing_run 0))) = 0 /\
  calls Synthesizer (after_failure (snd (Script.failing_run 0))) = 0 /\
  (Splitter <> Researcher -> after_failure (snd (Script.failing_run 0)) = []) /\
  (Splitter = Splitter ->
   calls Researcher (snd (Script.failing_run 0)) = 0 /\
   passes (snd (Script.failing_run 0)) = 0 /\
   provider_calls (snd (Script.failing_run 0)) = 1).
Proof.
  apply (provider_failure_is_fatal nat
           (Script.failing_at 0 Script.three_subtopics "yes")
           (Literal.literal_eval Literal.refuse) Script.example_query 0
           (fst (fst (Script.failing_run 0))) 1 (snd (Script.failing_run 0))
           Splitter (split_prompt Script.example_query)
           (PyExc "APIConnectionError")).
  - vm_compute. reflexivity.
  - vm_compute. reflexivity.
Defined.

(** A failed research call in the middle of a pass: the later research
    calls of that pass are still made, then the run raises. *)
Example research_failure_mid_pass :
  fst (fst (Script.failing_run 2)) = Raise (PyExc "APIConnectionError") /\
  calls Researcher (snd (Script.failing_run 2)) = 3 /\
  calls Researcher (after_failure (snd (Script.failing_run 2))) = 1 /\
  calls Judge (snd (Script.failing_run 2)) = 0 /\
  calls Synthesizer (snd (Script.failing_run 2)) = 0.
Proof. repeat split; vm_compute; reflexivity. Qed.

(** ** Determinism *)

Section Determinism.

Variable W : Type.
Variable complete : W -> string -> (string + exn) * W.
Variable py_eval : string -> result pyval.

(** The provider is a function of the prompt. *)
Variable f : string -> string + exn.
Hypothesis complete_f : forall w p, fst (complete w p) = f p.

Lemma oblivious_ret {A} (a : A) : oblivious (@ret W A a).
Proof. intros w1 w2. reflexivity. Qed.

Lemma oblivious_log msg : oblivious (@log W msg).
Proof. intros w1 w2. reflexivity. Qed.

Lemma oblivious_eval text : oblivious (eval W py_eval text).
Proof. intros w1 w2. reflexivity. Qed.

Lemma oblivious_iterate v : oblivious (@iterate W v).
Proof. intros w1 w2. unfold iterate. now destruct (py_iter v). Qed.

Lemma oblivious_chat who prompt : oblivious (chat W complete who prompt).
Proof.
  intros w1 w2. unfold chat, outcome.
  pose proof (complete_f w1 prompt) as E1. pose proof (complete_f w2 prompt) as E2.
  destruct (complete w1 prompt) as [o1 w1'], (complete w2 prompt) as [o2 w2'].
  simpl in E1, E2. subst o1 o2. now destruct (f prompt).
Qed.

Lemma oblivious_bind {A B} (m : M W A) (k : A -> M W B) :
  oblivious m -> (forall a, oblivious (k a)) -> oblivious (bind m k).
Proof.
  intros Hm Hk w1 w2. specialize (Hm w1 w2). unfold bind, outcome in *.
  destruct (m w1) as [[[a1|e1] v1] t1], (m w2) as [[[a2|e2] v2] t2];
    simpl in Hm; try discriminate Hm.
  - injection Hm as -> ->. specialize (Hk a2 v1 v2). unfold outcome in Hk.
    destruct (k a2 v1) as [[r1 u1] s1], (k a2 v2) as [[r2 u2] s2].
    simpl in *. now injection Hk as -> ->.
  - simpl. congruence.
Qed.

Lemma oblivious_run_all {A} (tasks : list (M W A)) :
  Forall oblivious tasks ->
  forall w1 w2,
    fst (fst (run_all tasks w1)) = fst (fst (run_all tasks w2)) /\
    snd (run_all tasks w1) = snd (run_all tasks w2).
Proof.
  induction 1 as [|t tasks Ht _ IH]; intros w1 w2; [split; reflexivity|].
  specialize (Ht w1 w2). unfold outcome in Ht. cbn [run_all].
  destruct (t w1) as [[r1 v1] t1], (t w2) as [[r2 v2] t2].
  simpl in Ht. injection Ht as -> ->. specialize (IH v1 v2).
  destruct (run_all tasks v1) as [[rs1 u1] s1], (run_all tasks v2) as [[rs2 u2] s2].
  simpl in *. destruct IH as [-> ->]. split; reflexivity.
Qed.

Lemma oblivious_gather {A} (tasks : list (M W A)) :
  Forall oblivious tasks -> oblivious (gather tasks).
Proof.
  intros H w1 w2. destruct (oblivious_run_all tasks H w1 w2) as [E1 E2].
  unfold gather, outcome.
  destruct (run_all tasks w1) as [[rs1 u1] s1], (run_all tasks w2) as [[rs2 u2] s2].
  simpl in *. now subst.
Qed.

Lemma oblivious_research_subtopic item :
  oblivious (research_subtopic W complete item).
Proof.
  unfold research_subtopic.
  apply oblivious_bind; [apply oblivious_log | intros _].
  apply oblivious_bind; [apply oblivious_chat | intros c; apply oblivious_ret].
Qed.

Lemma oblivious_research_pass subtopics :
  oblivious (research_pass W complete subtopics).
Proof.
  unfold research_pass.
  apply oblivious_bind; [apply oblivious_iterate | intros items].
  apply oblivious_gather, Forall_forall. intros t Ht.
  apply in_map_iff in Ht as [item [<- _]]. apply oblivious_research_subtopic.
Qed.

Lemma oblivious_needs_more_research findings :
  oblivious (needs_more_research W complete findings).
Proof.
  unfold needs_more_research.
  apply oblivious_bind; [apply oblivious_log | intros _].
  apply oblivious_bind; [apply oblivious_chat | intros c; apply oblivious_ret].
Qed.

Lemma oblivious_extra_passes n subtopics findings :
  oblivious (extra_passes W complete n subtopics findings).
Proof.
  revert findings. induction n as [|n IH]; intros findings; cbn [extra_passes].
  - apply oblivious_ret.
  - apply oblivious_bind; [apply oblivious_needs_more_research | intros [|]].
    + apply oblivious_bind; [apply oblivious_log | intros _].
      apply oblivious_bind; [apply oblivious_research_pass | intros fs; apply IH].
    + apply oblivious_ret.
Qed.

Lemma oblivious_research_pipeline q :
  oblivious (research_pipeline W complete py_eval q).
Proof.
  unfold research_pipeline, split_into_subtopics, synthesize_report.
  repeat first
    [ apply oblivious_log | apply oblivious_chat | apply oblivious_eval
    | apply oblivious_ret | apply oblivious_research_pass
    | apply oblivious_extra_passes
    | apply oblivious_bind; [|intros ?] ].
Qed.

End Determinism.

(** With the evaluator of the run fixed: when the provider's answer to a
    prompt is a function of the prompt alone, whatever state the provider
    is in, two runs of research_pipeline on the same query return the same
    outcome and emit the same events. The provider state, the loop and
    asyncio.gather add no other dependence; what is left is eval. *)
Theorem research_pipeline_deterministic
  (W : Type) (complete : W -> string -> (string + exn) * W)
  (py_eval : string -> result pyval) (f : string -> string + exn) :
  (forall w p, fst (complete w p) = f p) ->
  forall q w1 w2,
    fst (fst (research_pipeline W complete py_eval q w1))
    = fst (fst (research_pipeline W complete py_eval q w2)) /\
    snd (research_pipeline W complete py_eval q w1)
    = snd (research_pipeline W complete py_eval q w2).
Proof.
  intros Hf q w1 w2.
  pose proof (oblivious_research_pipeline W complete py_eval f Hf q w1 w2) as H.
  unfold outcome in H. now injection H.
Qed.

Lemma research_pipeline_deterministic_witness :
  fst (fst (research_pipeline nat (Script.counting Script.three_subtopics "yes")
              (Literal.literal_eval Literal.refuse) Script.example_query 0))
  = fst (fst (research_pipeline nat (Script.counting Script.three_subtopics "yes")
                (Literal.literal_eval Literal.refuse) Script.example_query 7)) /\
  snd (research_pipeline nat (Script.counting Script.three_subtopics "yes")
         (Literal.literal_eval Literal.refuse) Script.example_query 0)
  = snd (research_pipeline nat (Script.counting Script.three_subtopics "yes")
           (Literal.literal_eval Literal.refuse) Script.example_query 7).
Proof.
  apply (research_pipeline_deterministic nat
           (Script.counting Script.three_subtopics "yes")
           (Literal.literal_eval Literal.refuse)
           (fun p => inl (Script.answer Script.three_subtopics "yes" p))).
  intros w p. reflexivity.
Defined.

(** C10, at the failing input. The provider is a function of the prompt:
    it answers the splitter prompt with [Clock.clock_text], always. eval of
    that text reads the clock, so a run made while the clock reads 1 and a
    run made while it reads 2, on the same query and with the same
    provider, return different subtopics: research_pipeline is not
    deterministic. *)
Theorem eval_breaks_determinism :
  fst (fst (research_pipeline unit (Script.steady Clock.clock_text "no")
              (Clock.clock_eval 1) Script.example_query tt))
  = Ok (PyList [PyStr "1"], ["A short summary."], "Report: both are viable.") /\
  fst (fst (research_pipeline unit (Script.steady Clock.clock_text "no")
              (Clock.clock_eval 2) Script.example_query tt))
  = Ok (PyList [PyStr "2"], ["A short summary."], "Report: both are viable.") /\
  fst (fst (research_pipeline unit (Script.steady Clock.clock_text "no")
              (Clock.clock_eval 1) Script.example_query tt))
  <> fst (fst (research_pipeline unit (Script.steady Clock.clock_text "no")
                 (Clock.clock_eval 2) Script.example_query tt)).
Proof.
  repeat split; try (vm_compute; reflexivity). vm_compute. discriminate.
Qed.

(** * Further properties of the code *)

(** ** Stripped texts *)

Lemma starts_blank_lstrip (s : string) : starts_blank (lstrip s) = false.
Proof.
  induction s as [|c s IH]; simpl; [reflexivity|].
  destruct (isspace c) eqn:Hc; [exact IH | simpl; exact Hc].
Qed.

Lemma ends_blank_rstrip (s : string) : ends_blank (rstrip s) = false.
Proof.
  induction s as [|c s IH]; simpl; [reflexivity|].
  destruct (rstrip s) as [|d r].
  - destruct (isspace c) eqn:Hc; simpl; [reflexivity | exact Hc].
  - exact IH.
Qed.

Lemma starts_blank_rstrip (s : string) :
  starts_blank s = false -> starts_blank (rstrip s) = false.
Proof.
  destruct s as [|c s]; simpl; intros H; [reflexivity|].
  destruct (rstrip s); [rewrite H|]; simpl; try assumption.
Qed.

Lemma strip_trimmed (s : string) : trimmed (strip s).
Proof.
  split; unfold strip.
  - apply starts_blank_rstrip, starts_blank_lstrip.
  - apply ends_blank_rstrip.
Qed.

Lemma blank_app (a b : string) : blank (a ++ b) = blank a && blank b.
Proof.
  induction a as [|c a IH]; simpl; [reflexivity|].
  rewrite IH. now rewrite andb_assoc.
Qed.

Lemma strip_empty_iff (s : string) : strip s = "" <-> blank s = true.
Proof.
  split.
  - intros E. destruct (strip_split s) as [pre [post [H [B1 B2]]]].
    rewrite E in H. simpl in H. rewrite H, blank_app, B1, B2. reflexivity.
  - intros B. unfold strip.
    rewrite <- (append_nil_r s), (lstrip_blank_app s "" B). reflexivity.
Qed.

Lemma trimmed_strip_id (s : string) : trimmed s -> strip s = s.
Proof.
  intros [Hs He]. unfold strip.
  assert (lstrip s = s) as ->.
  { destruct s as [|c s]; simpl in *; [reflexivity | now rewrite Hs]. }
  clear Hs. induction s as [|c s IH]; simpl in *; [reflexivity|].
  destruct s as [|d s].
  - simpl. now rewrite He.
  - rewrite IH by exact He. reflexivity.
Qed.

Lemma evaluated_app (a b : list event) :
  evaluated (a ++ b) = (evaluated a ++ evaluated b)%list.
Proof. unfold evaluated. now rewrite flat_map_app. Qed.

Lemma evaluated_pass_events items os : evaluated (pass_events items os) = [].
Proof.
  revert os. induction items as [|item items IH]; intros [|o os]; try reflexivity.
  cbn [pass_events research_events app]. unfold evaluated in *.
  cbn [flat_map app]. apply IH.
Qed.

Lemma find_call_pass_events_app who items os rest :
  who <> Researcher ->
  find (is_call who) (pass_events items os ++ rest) = find (is_call who) rest.
Proof.
  intros Hw. now rewrite find_app, find_call_pass_events.
Qed.

Lemma evaluated_cons ev tr :
  evaluated (ev :: tr)
  = (match ev with EvEval t => [t] | _ => [] end ++ evaluated tr)%list.
Proof. reflexivity. Qed.

Lemma evaluated_nil : evaluated [] = [].
Proof. reflexivity. Qed.

Lemma Forall_trimmed_strip contents : Forall trimmed (map strip contents).
Proof.
  induction contents as [|c cs IH]; simpl; constructor;
    [apply strip_trimmed | exact IH].
Qed.

(** ** What a run returns and what it costs *)

Section Outputs.

Variable W : Type.
Variable complete : W -> string -> (string + exn) * W.
Variable py_eval : string -> result pyval.

(** X1. Every finding and the report of a run that returns are stripped
    texts: none starts or ends with a white-space character, and
    stripping them again changes nothing. *)
Theorem outputs_are_trimmed q w subs fs rep w' tr :
  research_pipeline W complete py_eval q w = (Ok (subs, fs, rep), w', tr) ->
  Forall trimmed fs /\ trimmed rep /\
  Forall (fun f => strip f = f) fs /\ strip rep = rep.
Proof.
  intros H. invert_run H; settle_result.
  all: match goal with
       | C : collect (map summary _) = Ok ?f
         |- Forall trimmed ?f /\ _ =>
           destruct (collect_ok _ _ C) as [cs [_ ->]]
       end.
  all: pose proof (Forall_trimmed_strip cs) as T.
  all: repeat split; try apply strip_trimmed; try exact T;
    try (apply trimmed_strip_id, strip_trimmed).
  all: eapply Forall_impl; [|exact T]; intros; now apply trimmed_strip_id.
Qed.

(** X2. In every run eval is applied to the stripped response of the
    splitter and to nothing else: exactly once when the splitter call
    returns, never when it fails; the splitter is called exactly once, as
    the first completion call, and the synthesizer at most once. *)
Theorem eval_only_on_splitter_response q w :
  let tr := snd (research_pipeline W complete py_eval q w) in
  exists o,
    find is_complete tr = Some (EvComplete Splitter (split_prompt q) o) /\
    evaluated tr = match o with inl content => [strip content] | inr _ => [] end /\
    calls Splitter tr = 1 /\ calls Synthesizer tr <= 1.
Proof.
  cbv zeta.
  destruct (research_pipeline W complete py_eval q w) as [[res w'] tr] eqn:R.
  cbn [snd]. invert_run R; batch_lengths; flatten.
  all: match goal with
       | H : complete _ (split_prompt _) = (?o, _) |- _ => exists o
       end.
  all: split; [reflexivity|].
  all: split;
    [ repeat first
        [ rewrite evaluated_app | rewrite evaluated_cons
        | rewrite evaluated_pass_events | rewrite evaluated_nil
        | progress cbn [app] ]; reflexivity |].
  all: measure; cbn; split; lia.
Qed.

(** X3. The cost of a run that returns over n subtopics: one splitter
    call, n research calls per pass, one call per consultation of the
    judge and one synthesizer call. With 1 to 3 passes and the judge
    consulted after each pass but the third, that is n + 3, 2n + 4 or
    3n + 4 completion calls. *)
Theorem completion_calls_of_a_run q w subs fs rep w' tr :
  research_pipeline W complete py_eval q w = (Ok (subs, fs, rep), w', tr) ->
  provider_calls tr = passes tr * List.length fs + calls Judge tr + 2 /\
  1 <= passes tr <= 3 /\ calls Judge tr = Nat.min (passes tr) 2 /\
  List.length fs + 3 <= provider_calls tr <= 3 * List.length fs + 4.
Proof.
  intros H. invert_run H; settle_result; batch_lengths; flatten.
  all: repeat match goal with
         | C : collect (map summary _) = Ok _ |- _ => apply collect_length in C
         end.
  all: measure; cbn [Nat.min]; repeat split; lia.
Qed.

(** X4. A research pass over the items of the subtopics makes exactly one
    research call per item, also when calls fail: the calls after a failed
    one are still made. The pass then raises the exception of the first
    failed call, or returns one finding per item when none failed. *)
Theorem research_pass_calls_every_item subtopics items w :
  py_iter subtopics = Some items ->
  let r := research_pass W complete subtopics w in
  passes (snd r) = 1 /\
  calls Researcher (snd r) = List.length items /\
  provider_calls (snd r) = List.length items /\
  prompts_of Researcher (snd r) = map research_prompt items /\
  (forall e, fst (fst r) = Raise e ->
             exists p, find is_failure (snd r)
                       = Some (EvComplete Researcher p (inr e))) /\
  (forall fs, fst (fst r) = Ok fs ->
              List.length fs = List.length items /\
              find is_failure (snd r) = None).
Proof.
  intros Hi. cbv zeta. rewrite research_pass_eq, Hi. cbv zeta.
  destruct (answers complete (map research_prompt items) w) as [os w1] eqn:A.
  cbn [fst snd]. batch_lengths. measure.
  repeat split; try reflexivity; try lia.
  - intros e C.
    destruct (pass_raise_failure items os e ltac:(assumption) C)
      as [p [_ [_ [F _]]]].
    exists p. cbn [find is_failure]. exact F.
  - match goal with C : collect _ = Ok _ |- _ => apply collect_length in C end.
    congruence.
  - cbn [find is_failure].
    rewrite <- (app_nil_r (pass_events items os)).
    erewrite find_failure_pass_ok by eassumption. reflexivity.
Qed.

End Outputs.

(** ** Why a run fails *)

Section FailureCauses.

Variable W : Type.
Variable complete : W -> string -> (string + exn) * W.
Variable py_eval : string -> result pyval.

(** X5. When the splitter's response evaluates to a list of strings, a
    run raises exactly when one of its completion calls failed, and what
    it raises is the exception of the first failed call; when no call
    failed it returns, with that list as its subtopics. On a list of
    strings research_pipeline raises nothing of its own and catches
    nothing. *)
Theorem only_failed_calls_raise q w content w0 ss res w' tr :
  complete w (split_prompt q) = (inl content, w0) ->
  py_eval (strip content) = Ok (PyList (map PyStr ss)) ->
  research_pipeline W complete py_eval q w = (res, w', tr) ->
  (forall e,
      res = Raise e <->
      exists who p, find is_failure tr = Some (EvComplete who p (inr e))) /\
  (find is_failure tr = None ->
   exists fs rep, res = Ok (PyList (map PyStr ss), fs, rep)).
Proof.
  intros Hs He H. invert_run H; batch_lengths.
  all: repeat match goal with
         | S0 : complete _ (split_prompt _) = _ |- _ =>
             rewrite Hs in S0; try discriminate S0; injection S0 as <- <-
         | E0 : py_eval (strip _) = _ |- _ =>
             rewrite He in E0; try discriminate E0; injection E0 as <-
         | I0 : py_iter (PyList _) = _ |- _ =>
             cbn in I0; try discriminate I0; injection I0 as <-
         end.
  all: flatten.
  all: try match goal with
         | _ : complete _ (synthesis_prompt _ _) = (?o, _) |- _ =>
             destruct o; cbn [final_result]
         end.
  all: repeat first
         [ erewrite find_failure_pass_ok by eassumption
         | progress cbn [app find is_failure] ].
  all: try match goal with
         | L : List.length ?os = List.length ?items,
           C : collect (map summary ?os) = Raise _ |- _ =>
             let F := fresh "F" in
             destruct (pass_raise_failure items os _ L C) as [? [_ [_ [F _]]]];
             rewrite F
         end.
  all: split;
    [ intros e0; split;
      [ intros E; try discriminate E; injection E as <-;
        eexists _, _; reflexivity
      | intros [who [p Ff]]; try discriminate Ff;
        injection Ff as <- <- <-; reflexivity ]
    | intros N; try discriminate N; eexists _, _; reflexivity ].
Qed.

(** X6. When the value eval returned has no item (an empty list or an
    empty str), a run that returns has made no research call at all: it
    returns no findings, and the judge and the synthesizer were still
    called, the judge once or twice and first of all on the findings
    [[]], the synthesizer once on the findings [[]]. *)
Theorem no_subtopics_no_research q w subs fs rep w' tr :
  research_pipeline W complete py_eval q w = (Ok (subs, fs, rep), w', tr) ->
  py_len subs = Some 0 ->
  fs = [] /\ calls Researcher tr = 0 /\
  1 <= calls Judge tr <= 2 /\
  (exists more, prompts_of Judge tr = judge_prompt [] :: more) /\
  Forall (fun p => p = judge_prompt []) (prompts_of Judge tr) /\
  calls Synthesizer tr = 1 /\
  prompts_of Synthesizer tr = [synthesis_prompt q []] /\
  provider_calls tr = calls Judge tr + 2.
Proof.
  intros H Hl. invert_run H; settle_result; batch_lengths.
  all: match goal with
       | Hi : py_iter _ = Some ?items |- _ =>
           apply py_iter_len in Hi; rewrite Hl in Hi; injection Hi as Hi;
           destruct items; [clear Hi | discriminate Hi]
       end.
  all: repeat match goal with
         | L : List.length ?os = List.length (@nil pyval) |- _ =>
             destruct os; [clear L | discriminate L]
         end.
  all: repeat match goal with
         | C : collect (map summary []) = Ok _ |- _ =>
             cbn in C; injection C as <-
         end.
  all: flatten; cbn [pass_events app List.length] in *.
  all: measure; rewrite ?app_nil_r.
  all: split; [reflexivity|]. all: split; [reflexivity|].
  all: split; [cbn; lia|]. all: split; [eexists; reflexivity|].
  all: split; [repeat constructor|].
  all: repeat split; reflexivity.
Qed.

End FailureCauses.

(** ** The page *)

Lemma enumerate_length {A} (k : nat) (l : list A) :
  List.length (enumerate k l) = List.length l.
Proof.
  revert k. induction l as [|x l IH]; intros k; simpl; [reflexivity|].
  now rewrite IH.
Qed.

Lemma enumerate_nth {A} (k i : nat) (l : list A) (x : A) :
  nth_error l i = Some x -> nth_error (enumerate k l) i = Some (k + i, x).
Proof.
  revert k i. induction l as [|y l IH]; intros k [|i] H; simpl in *;
    try discriminate H.
  - injection H as ->. now rewrite Nat.add_0_r.
  - rewrite (IH (S k) i H). f_equal. f_equal. lia.
Qed.

Lemma combine_nth {A B} (i : nat) (a : list A) (b : list B) (x : A) (y : B) :
  nth_error a i = Some x -> nth_error b i = Some y ->
  nth_error (combine a b) i = Some (x, y).
Proof.
  revert i b. induction a as [|x' a IH]; intros [|i] [|y' b] Ha Hb;
    simpl in *; try discriminate Ha; try discriminate Hb.
  - now injection Ha as ->; injection Hb as ->.
  - now apply IH.
Qed.

Lemma filter_markdown_lines l :
  filter is_markdown (map subtopic_line l) = map subtopic_line l.
Proof. induction l as [|x l IH]; simpl; [reflexivity | now rewrite IH]. Qed.

Lemma filter_markdown_boxes l : filter is_markdown (map finding_box l) = [].
Proof. induction l as [|x l IH]; simpl; [reflexivity | exact IH]. Qed.

Lemma filter_expander_lines l : filter is_expander (map subtopic_line l) = [].
Proof. induction l as [|x l IH]; simpl; [reflexivity | exact IH]. Qed.

Lemma filter_expander_boxes l :
  filter is_expander (map finding_box l) = map finding_box l.
Proof. induction l as [|x l IH]; simpl; [reflexivity | now rewrite IH]. Qed.

Section PageFacts.

Variable W : Type.
Variable complete : W -> string -> (string + exn) * W.
Variable py_eval : string -> result pyval.

Lemma pipeline_trace_nonempty q w :
  snd (research_pipeline W complete py_eval q w) <> [].
Proof.
  destruct (research_pipeline W complete py_eval q w) as [[res w'] tr] eqn:R.
  cbn [snd]. invert_pipeline R; unfold head_events, split_events;
    cbn [app]; discriminate.
Qed.

Lemma returned_subtopics_iterable q w subs fs rep w' tr :
  research_pipeline W complete py_eval q w = (Ok (subs, fs, rep), w', tr) ->
  exists items, py_iter subs = Some items /\ List.length fs = List.length items.
Proof.
  intros H. invert_run H; settle_result; batch_lengths.
  all: exists items; split; [assumption|].
  all: match goal with
       | C : collect (map summary ?os) = Ok ?f |- List.length ?f = _ =>
           apply collect_length in C; congruence
       end.
Qed.

(** X7. main runs the pipeline exactly when the button was clicked and
    the text of the question holds a character that is not white space.
    Otherwise it makes no completion call and evaluates nothing, raises
    nothing and leaves the provider as it was; a click on a blank question
    shows the warning. *)
Theorem main_runs_pipeline_iff q clicked w res w' tr shown :
  main W complete py_eval q clicked w = (res, w', tr, shown) ->
  (tr = [] <-> clicked = false \/ blank q = true) /\
  (tr = [] ->
   res = Ok tt /\ w' = w /\
   shown = if clicked then (page_top ++ [Warning])%list else page_top).
Proof.
  unfold main, run_research_sync. intros H.
  destruct clicked.
  - destruct (strip q =? "")%string eqn:E.
    + injection H as <- <- <- <-. apply String.eqb_eq, strip_empty_iff in E.
      repeat split; auto.
    + assert (blank q = false) as B.
      { destruct (blank q) eqn:B; [|reflexivity].
        apply strip_empty_iff, String.eqb_eq in B. congruence. }
      pose proof (pipeline_trace_nonempty q w) as N.
      destruct (research_pipeline W complete py_eval q w) as [[[[[s f] r]|e] w1] t].
      * cbn [snd] in N. destruct (results_page s f r);
          injection H as <- <- <- <-; repeat split; try contradiction;
          intros [D|D]; congruence.
      * cbn [snd] in N. injection H as <- <- <- <-.
        repeat split; try contradiction; intros [D|D]; congruence.
  - injection H as <- <- <- <-. repeat split; auto.
Qed.

(** X8. After a run that returned, main shows one numbered line per
    subtopic and one expander per subtopic, none dropped by zip: the
    expander numbered i + 1 is labelled with subtopic i and holds the
    finding i returned for it, and the report is written last. *)
Theorem main_shows_every_finding q w subs fs rep w' tr :
  blank q = false ->
  research_pipeline W complete py_eval q w = (Ok (subs, fs, rep), w', tr) ->
  exists items shown,
    py_iter subs = Some items /\
    main W complete py_eval q true w
    = (Ok tt, w', tr, (page_top ++ Spinner :: shown)%list) /\
    List.length (filter is_markdown shown) = List.length items /\
    List.length (filter is_expander shown) = List.length items /\
    List.length (filter is_expander shown) = List.length fs /\
    (forall i item f,
        nth_error items i = Some item -> nth_error fs i = Some f ->
        In (Markdown ("**" ++ decimal (S i) ++ ". " ++ py_str item ++ "**")) shown /\
        In (Expander ("Subtopic " ++ decimal (S i) ++ ": " ++ py_str item) f) shown) /\
    exists before, shown = (before ++ [Subheader ReportHeading; Write rep])%list.
Proof.
  intros B R.
  destruct (returned_subtopics_iterable q w subs fs rep w' tr R) as [items [Hi L]].
  assert ((strip q =? "")%string = false) as E.
  { destruct (strip q =? "")%string eqn:E; [|reflexivity].
    apply String.eqb_eq, strip_empty_iff in E. congruence. }
  exists items. eexists. split; [exact Hi|]. split.
  { unfold main, run_research_sync, results_page. rewrite E, R, Hi. reflexivity. }
  assert (List.length (combine items fs) = List.length items) as Lc
      by (rewrite length_combine; lia).
  split; [|split; [|split; [|split]]].
  - rewrite !filter_app, filter_markdown_lines, filter_markdown_boxes.
    cbn [filter is_markdown app]. rewrite app_nil_r, length_map.
    apply enumerate_length.
  - rewrite !filter_app, filter_expander_lines, filter_expander_boxes.
    cbn [filter is_expander app]. rewrite app_nil_r, length_map, enumerate_length.
    exact Lc.
  - rewrite !filter_app, filter_expander_lines, filter_expander_boxes.
    cbn [filter is_expander app]. rewrite app_nil_r, length_map, enumerate_length.
    congruence.
  - intros i item f Ni Nf. cbn [app]. split.
    + do 2 apply in_cons. apply in_or_app. left.
      apply in_map_iff. exists (S i, item). split; [reflexivity|].
      eapply nth_error_In. apply (enumerate_nth 1 i items item Ni).
    + do 2 apply in_cons. apply in_or_app. right.
      apply in_cons. apply in_or_app. left.
      apply in_map_iff. exists (S i, (item, f)). split; [reflexivity|].
      eapply nth_error_In.
      apply (enumerate_nth 1 i (combine items fs) (item, f)).
      now apply combine_nth.
  - exists ([Success; Subheader SubtopicsHeading]
            ++ map subtopic_line (enumerate 1 items)
            ++ [Subheader FindingsHeading]
            ++ map finding_box (enumerate 1 (combine items fs)))%list.
    now rewrite <- !app_assoc.
Qed.

(** X9. main raises only what the pipeline raised: the display loops
    cannot fail, because the subtopics of a run that returned can be
    iterated. The success banner is on the page exactly when the run
    returned; when the run raised, the page ends at the spinner, with no
    banner, subtopic, finding or report. *)
Theorem main_outcome q w :
  blank q = false ->
  let run := research_pipeline W complete py_eval q w in
  let page := main W complete py_eval q true w in
  fst (fst (fst page))
  = match fst (fst run) with Ok _ => Ok tt | Raise e => Raise e end /\
  snd (fst (fst page)) = snd (fst run) /\
  snd (fst page) = snd run /\
  (In Success (snd page) <-> exists out, fst (fst run) = Ok out) /\
  (forall e, fst (fst run) = Raise e -> snd page = (page_top ++ [Spinner])%list).
Proof.
  intros B. cbv zeta.
  assert ((strip q =? "")%string = false) as E.
  { destruct (strip q =? "")%string eqn:E; [|reflexivity].
    apply String.eqb_eq, strip_empty_iff in E. congruence. }
  unfold main, run_research_sync. rewrite E.
  destruct (research_pipeline W complete py_eval q w)
    as [[[[[s f] r]|e] w1] t] eqn:R.
  - destruct (returned_subtopics_iterable q w s f r w1 t R) as [items [Hi _]].
    unfold results_page. rewrite Hi. cbn [fst snd].
    repeat split; try reflexivity.
    + intros _. eexists. reflexivity.
    + intros _. unfold page_top. cbn. tauto.
    + intros e' D. discriminate D.
  - cbn [fst snd]. repeat split; try reflexivity.
    + unfold page_top. cbn. intros D.
      repeat (destruct D as [D|D]; [discriminate D|]). destruct D.
    + intros [out D]. discriminate D.
Qed.

End PageFacts.

(** ** The further properties on concrete runs *)

Lemma outputs_are_trimmed_witness :
  Forall trimmed Script.findings3 /\ trimmed "Report: both are viable." /\
  Forall (fun f => strip f = f) Script.findings3 /\
  strip "Report: both are viable." = "Report: both are viable.".
Proof.
  apply (outputs_are_trimmed unit (Script.steady Script.three_subtopics "no")
           (Literal.literal_eval Literal.refuse) Script.example_query tt
           Script.subtopics3 Script.findings3 "Report: both are viable." tt
           (snd Script.no_run)).
  vm_compute. reflexivity.
Defined.

Lemma completion_calls_of_a_run_witness :
  provider_calls (snd Script.yes_run)
  = passes (snd Script.yes_run) * List.length Script.findings3
    + calls Judge (snd Script.yes_run) + 2 /\
  1 <= passes (snd Script.yes_run) <= 3 /\
  calls Judge (snd Script.yes_run) = Nat.min (passes (snd Script.yes_run)) 2 /\
  List.length Script.findings3 + 3 <= provider_calls (snd Script.yes_run)
  <= 3 * List.length Script.findings3 + 4.
Proof.
  apply (completion_calls_of_a_run unit (Script.steady Script.three_subtopics "yes")
           (Literal.literal_eval Literal.refuse) Script.example_query tt
           Script.subtopics3 Script.findings3 "Report: both are viable." tt
           (snd Script.yes_run)).
  vm_compute. reflexivity.
Defined.

Lemma research_pass_calls_every_item_witness :
  let r := research_pass nat (Script.failing_at 2 Script.three_subtopics "yes")
             Script.subtopics3 1 in
  passes (snd r) = 1 /\
  calls Researcher (snd r) = 3 /\
  provider_calls (snd r) = 3 /\
  prompts_of Researcher (snd r)
  = map research_prompt
      [PyStr "Solar cost trends"; PyStr "Wind cost trends";
       PyStr "Environmental impact"] /\
  (forall e, fst (fst r) = Raise e ->
             exists p, find is_failure (snd r)
                       = Some (EvComplete Researcher p (inr e))) /\
  (forall fs, fst (fst r) = Ok fs ->
              List.length fs = 3 /\ find is_failure (snd r) = None).
Proof.
  apply (research_pass_calls_every_item nat
           (Script.failing_at 2 Script.three_subtopics "yes")
           Script.subtopics3
           [PyStr "Solar cost trends"; PyStr "Wind cost trends";
            PyStr "Environmental impact"] 1).
  reflexivity.
Defined.

Lemma only_failed_calls_raise_witness :
  (forall e,
      fst (fst (Script.failing_run 2)) = Raise e <->
      exists who p,
        find is_failure (snd (Script.failing_run 2))
        = Some (EvComplete who p (inr e))) /\
  (find is_failure (snd (Script.failing_run 2)) = None ->
   exists fs rep,
     fst (fst (Script.failing_run 2))
     = Ok (PyList (map PyStr ["Solar cost trends"; "Wind cost trends";
                              "Environmental impact"]), fs, rep)).
Proof.
  apply (only_failed_calls_raise nat
           (Script.failing_at 2 Script.three_subtopics "yes")
           (Literal.literal_eval Literal.refuse) Script.example_query 0
           Script.three_subtopics 1
           ["Solar cost trends"; "Wind cost trends"; "Environmental impact"]
           (fst (fst (Script.failing_run 2))) 4 (snd (Script.failing_run 2))).
  - reflexivity.
  - vm_compute. reflexivity.
  - vm_compute. reflexivity.
Defined.

Lemma no_subtopics_no_research_witness :
  (@nil string) = [] /\
  calls Researcher
    (snd (research_pipeline unit (Script.steady "[]" "no")
            (Literal.literal_eval Literal.refuse) Script.example_query tt)) = 0 /\
  1 <= calls Judge
         (snd (research_pipeline unit (Script.steady "[]" "no")
            (Literal.literal_eval Literal.refuse) Script.example_query tt))
  <= 2 /\
  (exists more,
      prompts_of Judge
        (snd (research_pipeline unit (Script.steady "[]" "no")
            (Literal.literal_eval Literal.refuse) Script.example_query tt))
      = judge_prompt [] :: more) /\
  Forall (fun p => p = judge_prompt [])
    (prompts_of Judge
       (snd (research_pipeline unit (Script.steady "[]" "no")
            (Literal.literal_eval Literal.refuse) Script.example_query tt))) /\
  calls Synthesizer
    (snd (research_pipeline unit (Script.steady "[]" "no")
            (Literal.literal_eval Literal.refuse) Script.example_query tt)) = 1 /\
  prompts_of Synthesizer
    (snd (research_pipeline unit (Script.steady "[]" "no")
            (Literal.literal_eval Literal.refuse) Script.example_query tt))
  = [synthesis_prompt Script.example_query []] /\
  provider_calls
    (snd (research_pipeline unit (Script.steady "[]" "no")
            (Literal.literal_eval Literal.refuse) Script.example_query tt))
  = calls Judge
      (snd (research_pipeline unit (Script.steady "[]" "no")
            (Literal.literal_eval Literal.refuse) Script.example_query tt)) + 2.
Proof.
  apply (no_subtopics_no_research unit (Script.steady "[]" "no")
           (Literal.literal_eval Literal.refuse) Script.example_query tt
           (PyList []) [] "Report: both are viable." tt
           (snd (research_pipeline unit (Script.steady "[]" "no")
            (Literal.literal_eval Literal.refuse) Script.example_query tt))).
  - vm_compute. reflexivity.
  - reflexivity.
Defined.

Lemma main_runs_pipeline_iff_witness :
  ((@nil event) = [] <-> true = false \/ blank "   " = true) /\
  ((@nil event) = [] ->
   Ok tt = Ok tt /\ tt = tt /\
   (page_top ++ [Warning])%list
   = if true then (page_top ++ [Warning])%list else page_top).
Proof.
  apply (main_runs_pipeline_iff unit (Script.steady Script.three_subtopics "no")
           (Literal.literal_eval Literal.refuse) "   " true tt
           (Ok tt) tt [] (page_top ++ [Warning])%list).
  reflexivity.
Defined.

Lemma main_shows_every_finding_witness :
  exists items shown,
    py_iter Script.subtopics3 = Some items /\
    main unit (Script.steady Script.three_subtopics "no")
      (Literal.literal_eval Literal.refuse) Script.example_query true tt
    = (Ok tt, tt, snd Script.no_run, (page_top ++ Spinner :: shown)%list) /\
    List.length (filter is_markdown shown) = List.length items /\
    List.length (filter is_expander shown) = List.length items /\
    List.length (filter is_expander shown) = List.length Script.findings3 /\
    (forall i item f,
        nth_error items i = Some item ->
        nth_error Script.findings3 i = Some f ->
        In (Markdown ("**" ++ decimal (S i) ++ ". " ++ py_str item ++ "**")) shown /\
        In (Expander ("Subtopic " ++ decimal (S i) ++ ": " ++ py_str item) f) shown) /\
    exists before,
      shown = (before ++ [Subheader ReportHeading;
                          Write "Report: both are viable."])%list.
Proof.
  apply (main_shows_every_finding unit (Script.steady Script.three_subtopics "no")
           (Literal.literal_eval Literal.refuse) Script.example_query tt
           Script.subtopics3 Script.findings3 "Report: both are viable." tt
           (snd Script.no_run)).
  - reflexivity.
  - vm_compute. reflexivity.
Defined.

Lemma main_outcome_witness :
  let run := research_pipeline nat (Script.failing_at 2 Script.three_subtopics "yes")
               (Literal.literal_eval Literal.refuse) Script.example_query 0 in
  let page := main nat (Script.failing_at 2 Script.three_subtopics "yes")
                (Literal.literal_eval Literal.refuse) Script.example_query true 0 in
  fst (fst (fst page))
  = match fst (fst run) with Ok _ => Ok tt | Raise e => Raise e end /\
  snd (fst (fst page)) = snd (fst run) /\
  snd (fst page) = snd run /\
  (In Success (snd page) <-> exists out, fst (fst run) = Ok out) /\
  (forall e, fst (fst run) = Raise e -> snd page = (page_top ++ [Spinner])%list).
Proof.
  apply (main_outcome nat (Script.failing_at 2 Script.three_subtopics "yes")
           (Literal.literal_eval Literal.refuse) Script.example_query 0).
  reflexivity.
Defined.
